(** * telegram_dicktor: the message-to-delivered-audio pipeline

    A shallow embedding of [audio_dictor.py]: the file naming scheme, the
    per-message handler [handler_new_message] with its external
    collaborators (Telegram client, TTS pipeline, soundfile, wave, the
    file system, FFmpeg) taken as per-run outcomes, and the start-up
    sequence of the script.  Python exceptions are values of [exn];
    every external call and every error log record of a run is kept, in
    order, in the run's list of actions. *)

From Stdlib Require Import ZArith QArith Qround Ascii String.
From stdpp Require Import base strings pretty gmap list.
Local Open Scope Z_scope.
Local Open Scope string_scope.

(** ** Python values the script formats into strings *)

(** [str(n)] for a Python [int]: decimal digits, a leading dash for
    negative numbers. *)
Definition py_str (n : Z) : string := pretty n.

(** [int(x)] for a Python [float]: truncation towards zero.  A finite
    float is a rational number. *)
Definition py_int (x : Q) : Z := Z.quot (Qnum x) (Z.pos (Qden x)).

(** An attribute value that an f-string may have to render: Telethon
    entities carry [None] for an unset user name. *)
Inductive pyval :=
  | PyNone
  | PyStr (s : string).

(** [f"{v}"] *)
Definition py_format (v : pyval) : string :=
  match v with
  | PyNone => "None"
  | PyStr s => s
  end.

(** ** Paths *)

Module Path.

Definition is_abs (p : string) : bool :=
  match p with
  | String "/"%char _ => true
  | _ => false
  end.

Fixpoint ends_with_sep (p : string) : bool :=
  match p with
  | EmptyString => false
  | String c EmptyString => if decide (c = "/"%char) then true else false
  | String _ rest => ends_with_sep rest
  end.

(** [os.path.join(a, b)] (two arguments, POSIX flavour). *)
Definition join (a b : string) : string :=
  if is_abs b then b
  else if decide (a = EmptyString) then b
  else if ends_with_sep a then a +:+ b
  else a +:+ "/" +:+ b.

(** [os.path.abspath(p)] in working directory [cwd].  The paths the
    script builds have no empty, [.] or [..] component and [cwd] is what
    [os.getcwd()] returns, so the normalisation step of [abspath] leaves
    the joined path as it is. *)
Definition abspath (cwd p : string) : string :=
  if is_abs p then p else join cwd p.

End Path.

(** ** Configuration (module level constants of the script) *)

Definition CHANNELS_TO_MONITOR : list Z := [-1001114591086].
Definition TTS_MODEL_NAME : string := "facebook/mms-tts-rus".
Definition AUDIO_OUTPUT_DIR : string := "generated_audio".
Definition TARGET_CHAT_ENTITY : string := "me".

(** ** File naming (lines 95-97 of the handler) *)

Module Naming.

(** [f"msg_{abs(chat_id)}_{message_id}_{int(time.time())}"]; [now] is the
    reading of [time.time()]. *)
Definition base_filename (chat_id message_id : Z) (now : Q) : string :=
  "msg_" +:+ py_str (Z.abs chat_id) +:+ "_" +:+ py_str message_id
         +:+ "_" +:+ py_str (py_int now).

Definition wav_filepath (cwd : string) (chat_id message_id : Z) (now : Q) : string :=
  Path.abspath cwd
    (Path.join AUDIO_OUTPUT_DIR (base_filename chat_id message_id now +:+ ".wav")).

Definition mp3_filepath (chat_id message_id : Z) (now : Q) : string :=
  Path.join AUDIO_OUTPUT_DIR (base_filename chat_id message_id now +:+ ".mp3").

End Naming.

(** ** Exceptions and external processes *)

(** The subclasses of [Exception] the script tells apart, each with what
    [str(e)] gives.  Interrupts that are not an [Exception]
    ([KeyboardInterrupt], task cancellation) are not raised inside the
    handler in this model; the start-up sequence has its own outcome for
    them. *)
Inductive exn :=
  | FileNotFoundError (msg : string)
  | CalledProcessError (returncode : Z) (msg stdout stderr : string)
  | OtherException (msg : string).

Definition exn_str (e : exn) : string :=
  match e with
  | FileNotFoundError msg => msg
  | CalledProcessError _ msg _ _ => msg
  | OtherException msg => msg
  end.

Inductive result (A : Type) :=
  | Returns (a : A)
  | Raises (e : exn).
Arguments Returns {A} a.
Arguments Raises {A} e.

(** What launching an external program comes to. *)
Inductive proc_outcome :=
  | ProcNotFound (msg : string)
  | ProcCompleted (returncode : Z) (stdout stderr : string)
  | ProcLaunchError (msg : string).

Record completed_process := { cp_stdout : string; cp_stderr : string }.

(** [repr] of a string without quotes or escapes, and of [None]. *)
Definition py_repr (v : pyval) : string :=
  match v with
  | PyNone => "None"
  | PyStr s => "'" +:+ s +:+ "'"
  end.

Fixpoint py_join (sep : string) (l : list string) : string :=
  match l with
  | [] => EmptyString
  | [x] => x
  | x :: rest => x +:+ sep +:+ py_join sep rest
  end.

Definition py_str_list (l : list pyval) : string :=
  "[" +:+ py_join ", " (py_repr <$> l) +:+ "]".

(** The members of [signal.Signals], with the numbers of Linux. *)
Definition signal_names : list (Z * string) :=
  [(1, "SIGHUP"); (2, "SIGINT"); (3, "SIGQUIT"); (4, "SIGILL"); (5, "SIGTRAP");
   (6, "SIGABRT"); (7, "SIGBUS"); (8, "SIGFPE"); (9, "SIGKILL"); (10, "SIGUSR1");
   (11, "SIGSEGV"); (12, "SIGUSR2"); (13, "SIGPIPE"); (14, "SIGALRM");
   (15, "SIGTERM"); (16, "SIGSTKFLT"); (17, "SIGCHLD"); (18, "SIGCONT");
   (19, "SIGSTOP"); (20, "SIGTSTP"); (21, "SIGTTIN"); (22, "SIGTTOU");
   (23, "SIGURG"); (24, "SIGXCPU"); (25, "SIGXFSZ"); (26, "SIGVTALRM");
   (27, "SIGPROF"); (28, "SIGWINCH"); (29, "SIGIO"); (30, "SIGPWR");
   (31, "SIGSYS"); (34, "SIGRTMIN"); (64, "SIGRTMAX")].

(** [repr(signal.Signals(n))]; [None] is the [ValueError] for a number
    that names no signal. *)
Definition Signals (n : Z) : option string :=
  match List.find (fun p => bool_decide (fst p = n)) signal_names with
  | Some p => Some ("<Signals." +:+ snd p +:+ ": " +:+ py_str n +:+ ">")
  | None => None
  end.

(** [str(e)] for the [CalledProcessError] of the command [cmd]: a
    negative return code is the signal that ended the process. *)
Definition CalledProcessError_str (cmd : list pyval) (returncode : Z) : string :=
  if decide (returncode < 0) then
    match Signals (- returncode) with
    | Some sig => "Command '" +:+ py_str_list cmd +:+ "' died with " +:+ sig +:+ "."
    | None => "Command '" +:+ py_str_list cmd +:+ "' died with unknown signal "
                +:+ py_str (- returncode) +:+ "."
    end
  else "Command '" +:+ py_str_list cmd
         +:+ "' returned non-zero exit status " +:+ py_str returncode +:+ ".".
Arguments CalledProcessError_str : simpl never.

(** [subprocess.run(args, check=True, capture_output=True, text=True)] *)
Definition subprocess_run (args : list pyval) (o : proc_outcome) : result completed_process :=
  match o with
  | ProcNotFound msg => Raises (FileNotFoundError msg)
  | ProcCompleted rc out err =>
      if decide (rc = 0) then Returns {| cp_stdout := out; cp_stderr := err |}
      else Raises (CalledProcessError rc (CalledProcessError_str args rc) out err)
  | ProcLaunchError msg => Raises (OtherException msg)
  end.

(** ** The collaborators' data *)

(** A Telethon entity as far as the script looks at it: [None] is an
    attribute the object does not have. *)
Record entity := { title : option pyval; username : option pyval }.

(** [getattr(e, 'title', getattr(e, 'username', str(chat_id)))] *)
Definition getattr_title (e : entity) (chat_id : Z) : pyval :=
  match title e with
  | Some v => v
  | None => match username e with
            | Some v => v
            | None => PyStr (py_str chat_id)
            end
  end.

(** A numpy array as far as the handler's control flow depends on it:
    its shape.  The samples go to [sf.write] unchanged. *)
Record ndarray := { shape : list nat }.

Definition squeeze (a : ndarray) : ndarray :=
  {| shape := filter (fun d => d <> 1%nat) (shape a) |}.

Definition size (a : ndarray) : nat := foldr Nat.mul 1%nat (shape a).

Record tts_output := { audio : ndarray; sampling_rate : Z }.

(** [event.chat_id], [event.id] and [event.message.text] *)
Record event := { ev_chat_id : Z; ev_id : Z; ev_text : pyval }.

(** [not message_text] *)
Definition falsy (v : pyval) : bool :=
  match v with
  | PyNone => true
  | PyStr EmptyString => true
  | PyStr _ => false
  end.

(** A [str] is held as its UTF-8 bytes: a byte [10xxxxxx] continues
    the character that the bytes before it started. *)
Definition continuation (c : ascii) : bool :=
  match c with
  | Ascii _ _ _ _ _ _ b6 b7 => b7 && negb b6
  end.

(** [s[:n]]: the first [n] characters of [s]. *)
Fixpoint py_take (n : nat) (s : string) : string :=
  match s with
  | EmptyString => EmptyString
  | String c rest =>
      if continuation c then String c (py_take n rest)
      else match n with
           | O => EmptyString
           | S m => String c (py_take m rest)
           end
  end.

(** [message_text[:100]] *)
Definition first100 (v : pyval) : string :=
  match v with
  | PyNone => EmptyString
  | PyStr s => py_take 100 s
  end.
Arguments first100 : simpl never.

(** What the outside world does during one run of the handler. *)
Record env := {
  now : Q;                          (* time.time() at line 95 *)
  chat_lookup : result entity;      (* client.get_entity(chat_id) *)
  tts : result tts_output;          (* lines 86-88 *)
  sf_write : result bool;           (* sf.write and the sleep: is the file there after them *)
  wave_open : result ();            (* wave.open(wav_filepath, 'rb') *)
  access_r_ok : bool;               (* os.access(wav_filepath, os.R_OK) *)
  ffmpeg : proc_outcome;            (* the FFmpeg process *)
  os_remove : result ();            (* os.remove(wav_filepath) on an existing file *)
  target_lookup : result entity;    (* client.get_entity(TARGET_CHAT_ENTITY) *)
  send_file : result ();            (* client.send_file(...) *)
  write_leaves_file : bool;         (* is the file there after an sf.write that raised *)
  ffmpeg_leaves_output : bool;      (* is the output there after an FFmpeg that failed *)
}.

(** ** Effects of a run *)

Inductive level := INFO | WARNING | ERROR.

Inductive entity_ref :=
  | ById (chat_id : Z)
  | ByName (name : string).

(** What a run does to the outside, in order: the calls it makes and the
    records it logs. *)
Inductive action :=
  | Log (lv : level) (msg : string)
  | GetEntity (who : entity_ref)
  | TtsPipeline (text : pyval)
  | SfWrite (path : string) (rate : Z)
  | Sleep (seconds : Z)
  | PathExists (path : string)
  | WaveOpen (path : string)
  | OsAccess (path : string)
  | SubprocessRun (args : list pyval)
  | OsRemove (path : string)
  | SendFile (target : entity) (path caption : string).

(** The [return] statement (or the end of the body) through which the
    handler was left.  Python returns [None] at each of them; the label
    records which one it was. *)
Inductive outcome :=
  | NoText                          (* line 79 *)
  | EmptyAudio                      (* line 93 *)
  | WavMissing                      (* line 107 *)
  | WavNotOpened (e : exn)          (* line 115 *)
  | WavNotReadable                  (* line 120 *)
  | FfmpegFailed (stderr : string)  (* line 133 *)
  | FfmpegNotFound                  (* line 136 *)
  | AudioStageError (e : exn)       (* line 147 *)
  | SendError (e : exn)             (* line 156 *)
  | Delivered.                      (* line 154 *)

(** The files on disk (absolute paths) and the actions so far. *)
Record world := { fs : gset string; acts : list action }.

Inductive res (A : Type) :=
  | Value (a : A)
  | Raised (e : exn)
  | Return (o : outcome).
Arguments Value {A} a.
Arguments Raised {A} e.
Arguments Return {A} o.

Definition M (A : Type) : Type := world -> res A * world.

Definition ret {A} (a : A) : M A := fun w => (Value a, w).

Definition bind {A B} (m : M A) (k : A -> M B) : M B :=
  fun w =>
    match m w with
    | (Value a, w') => k a w'
    | (Raised e, w') => (Raised e, w')
    | (Return o, w') => (Return o, w')
    end.

Notation "x <-- m ;;; k" := (bind m (fun x => k))
  (at level 20, m at level 99, k at level 200, right associativity, only parsing).
Notation "m ;;; k" := (bind m (fun _ => k))
  (at level 100, k at level 200, right associativity, only parsing).

(** [return] inside the handler. *)
Definition return_ {A} (o : outcome) : M A := fun w => (Return o, w).

Definition lift {A} (r : result A) : M A :=
  fun w => match r with
           | Returns a => (Value a, w)
           | Raises e => (Raised e, w)
           end.

(** [try: body  except ...: handler]; [h e = None] when no clause matches. *)
Definition try_except {A} (body : M A) (h : exn -> option (M A)) : M A :=
  fun w =>
    match body w with
    | (Raised e, w') => match h e with
                        | Some k => k w'
                        | None => (Raised e, w')
                        end
    | r => r
    end.

(** [except Exception as e] *)
Definition except_Exception {A} (k : exn -> M A) : exn -> option (M A) :=
  fun e => Some (k e).

Definition emit (a : action) : M () :=
  fun w => (Value (), {| fs := fs w; acts := (acts w ++ [a])%list |}).

Definition logging (lv : level) (msg : string) : M () := emit (Log lv msg).

Definition call {A} (a : action) (r : result A) : M A := emit a ;;; lift r.

Definition get_fs : M (gset string) := fun w => (Value (fs w), w).

Definition set_fs (f : gset string) : M () :=
  fun w => (Value (), {| fs := f; acts := acts w |}).

(** ** The handler *)

Definition dquote : string := String (ascii_of_nat 34) EmptyString.

Section Handler.

Variable cwd : string.          (* os.getcwd() *)
Variable FFMPEG_PATH : pyval.   (* os.getenv('FFMPEG_PATH') *)

(** [sf.write(path, data, rate)]: when it returns, the outside world
    says whether the file is there once the pause is over.  When it
    raises, it has either failed before it created the file, and the
    disk is as before, or after, and the file is there: the outside
    world says which. *)
Definition soundfile_write (path : string) (rate : Z) (E : env) : M () :=
  emit (SfWrite path rate) ;;;
  f <-- get_fs ;;;
  match sf_write E with
  | Returns present =>
      set_fs (if present : bool then {[Path.abspath cwd path]} ∪ f
              else f ∖ {[Path.abspath cwd path]})
  | Raises e =>
      set_fs (if write_leaves_file E then {[Path.abspath cwd path]} ∪ f else f) ;;;
      lift (Raises e)
  end.

(** [os.path.exists(path)] *)
Definition os_path_exists (path : string) : M bool :=
  emit (PathExists path) ;;;
  f <-- get_fs ;;;
  ret (bool_decide (Path.abspath cwd path ∈ f)).

(** [os.remove(path)] *)
Definition remove (path : string) (E : env) : M () :=
  call (OsRemove path) (os_remove E) ;;;
  f <-- get_fs ;;;
  if bool_decide (Path.abspath cwd path ∈ f)
  then set_fs (f ∖ {[Path.abspath cwd path]})
  else lift (Raises (FileNotFoundError
               ("[Errno 2] No such file or directory: '" +:+ path +:+ "'"))).

(** What FFmpeg leaves at its output path: a run that completes with
    status 0 has written its output file; after a run that completes
    with another status (FFmpeg failed, or was killed) the outside world
    says whether an output file is there; an FFmpeg that was not
    launched has written nothing. *)
Definition ffmpeg_output (E : env) : bool :=
  match ffmpeg E with
  | ProcCompleted rc _ _ => if decide (rc = 0) then true else ffmpeg_leaves_output E
  | ProcNotFound _ => false
  | ProcLaunchError _ => false
  end.

(** [subprocess.run([FFMPEG_PATH, "-i", wav, mp3], check=True, ...)] *)
Definition ffmpeg_run (wav mp3 : string) (E : env) : M completed_process :=
  let args := [FFMPEG_PATH; PyStr "-i"; PyStr wav; PyStr mp3] in
  emit (SubprocessRun args) ;;;
  f <-- get_fs ;;;
  set_fs (if ffmpeg_output E then {[Path.abspath cwd mp3]} ∪ f else f) ;;;
  lift (subprocess_run args (ffmpeg E)).

(** Lines 66-72. *)
Definition resolve_chat_title (ev : event) (E : env) : M pyval :=
  try_except
    (chat_entity <-- call (GetEntity (ById (ev_chat_id ev))) (chat_lookup E) ;;;
     ret (getattr_title chat_entity (ev_chat_id ev)))
    (except_Exception (fun e =>
       logging WARNING ("Could not retrieve chat title for "
                          +:+ py_str (ev_chat_id ev) +:+ ": " +:+ exn_str e) ;;;
       ret (PyStr "Unknown"))).

Definition caption (chat_title : pyval) (message_id : Z) : string :=
  "Audio from channel '" +:+ py_format chat_title
    +:+ "' (Message #" +:+ py_str message_id +:+ ")".

(** Lines 85-147: the [try] block from the TTS call to the deletion of
    the WAV file; its value is [mp3_filepath]. *)
Definition audio_stage (ev : event) (E : env) : M string :=
  let chat_id := ev_chat_id ev in
  let message_id := ev_id ev in
  try_except
    (output <-- call (TtsPipeline (ev_text ev)) (tts E) ;;;
     let speech_np := squeeze (audio output) in
     (if bool_decide (size speech_np = 0%nat)
      then logging ERROR "speech_np array is empty. Check TTS pipeline output." ;;;
           return_ EmptyAudio
      else ret ()) ;;;
     let wav_filepath := Naming.wav_filepath cwd chat_id message_id (now E) in
     let mp3_filepath := Naming.mp3_filepath chat_id message_id (now E) in
     soundfile_write wav_filepath (sampling_rate output) E ;;;
     emit (Sleep 1) ;;;
     logging INFO ("WAV file saved: " +:+ wav_filepath) ;;;
     found <-- os_path_exists wav_filepath ;;;
     (if negb found
      then logging ERROR ("File " +:+ wav_filepath +:+ " not found after saving!") ;;;
           return_ WavMissing
      else ret ()) ;;;
     try_except
       (call (WaveOpen wav_filepath) (wave_open E) ;;;
        logging INFO ("File " +:+ wav_filepath +:+ " successfully opened with wave."))
       (except_Exception (fun e =>
          logging ERROR ("Error opening WAV file with wave: " +:+ exn_str e) ;;;
          return_ (WavNotOpened e))) ;;;
     readable <-- call (OsAccess wav_filepath) (Returns (access_r_ok E)) ;;;
     (if negb readable
      then logging ERROR ("No read permissions for file " +:+ wav_filepath +:+ "!") ;;;
           return_ WavNotReadable
      else ret ()) ;;;
     try_except
       (result <-- ffmpeg_run wav_filepath mp3_filepath E ;;;
        logging INFO ("MP3 file saved: " +:+ mp3_filepath) ;;;
        logging INFO ("FFmpeg output: " +:+ cp_stdout result))
       (fun e =>
          match e with
          | CalledProcessError _ _ _ stderr =>
              Some (logging ERROR ("Error converting to MP3: " +:+ stderr) ;;;
                    return_ (FfmpegFailed stderr))
          | FileNotFoundError _ =>
              Some (logging ERROR ("FFmpeg not found at path: " +:+ py_format FFMPEG_PATH
                                     +:+ ". Check the path or install FFmpeg.") ;;;
                    return_ FfmpegNotFound)
          | OtherException _ => None
          end) ;;;
     try_except
       (remove wav_filepath E ;;;
        logging INFO ("Temporary WAV file deleted: " +:+ wav_filepath))
       (except_Exception (fun e =>
          logging ERROR ("Error deleting WAV file: " +:+ exn_str e))) ;;;
     ret mp3_filepath)
    (except_Exception (fun e =>
       logging ERROR ("Error during TTS or audio saving for message ["
                        +:+ py_str message_id +:+ "]: " +:+ exn_str e) ;;;
       return_ (AudioStageError e))).

(** Lines 149-156. *)
Definition send_stage (ev : event) (E : env) (chat_title : pyval) (mp3_filepath : string)
  : M outcome :=
  try_except
    (target_entity <-- call (GetEntity (ByName TARGET_CHAT_ENTITY)) (target_lookup E) ;;;
     call (SendFile target_entity mp3_filepath (caption chat_title (ev_id ev)))
          (send_file E) ;;;
     logging INFO ("MP3 file successfully sent to '" +:+ TARGET_CHAT_ENTITY +:+ "'.") ;;;
     ret Delivered)
    (except_Exception (fun e =>
       logging ERROR ("Error sending MP3 file for message ["
                        +:+ py_str (ev_id ev) +:+ "]: " +:+ exn_str e) ;;;
       ret (SendError e))).

Definition handler_new_message (ev : event) (E : env) : M outcome :=
  let chat_id := ev_chat_id ev in
  let message_id := ev_id ev in
  chat_title <-- resolve_chat_title ev E ;;;
  logging INFO ("New message [" +:+ py_str message_id +:+ "] in chat '"
                  +:+ py_format chat_title +:+ "' (" +:+ py_str chat_id +:+ ")") ;;;
  let message_text := ev_text ev in
  (if falsy message_text
   then logging INFO ("Message [" +:+ py_str message_id +:+ "] in '"
                        +:+ py_format chat_title +:+ "' contains no text. Skipping.") ;;;
        return_ NoText
   else ret ()) ;;;
  logging INFO ("Message text [" +:+ py_str message_id +:+ "]: " +:+ dquote
                  +:+ first100 message_text +:+ "..." +:+ dquote) ;;;
  logging INFO ("Starting TTS for message [" +:+ py_str message_id +:+ "]...") ;;;
  mp3_filepath <-- audio_stage ev E ;;;
  send_stage ev E chat_title mp3_filepath.

(** One run of the handler on the files [f]: how it was left, the files
    afterwards and what it did. *)
Definition run (ev : event) (E : env) (f : gset string) : res outcome * world :=
  handler_new_message ev E {| fs := f; acts := [] |}.

(** The exit taken by a run; [None] if an exception left the handler. *)
Definition exit_of (r : res outcome * world) : option outcome :=
  match r.1 with
  | Value o => Some o
  | Return o => Some o
  | Raised _ => None
  end.

Definition files_of (r : res outcome * world) : gset string := fs r.2.
Definition actions_of (r : res outcome * world) : list action := acts r.2.

(** The process handles inbound messages one after the other, each on
    the files the earlier ones left. *)
Fixpoint process (inbox : list (event * env)) (f : gset string)
  : list (option outcome) * gset string * list action :=
  match inbox with
  | [] => ([], f, [])
  | (ev, E) :: rest =>
      let r := run ev E f in
      let '(outs, f', tr) := process rest (files_of r) in
      (exit_of r :: outs, f', (actions_of r ++ tr)%list)
  end.

End Handler.

(** ** Start-up of the script *)

(** How an awaited client call ends inside [asyncio.run(main())]. *)
Inductive await_outcome :=
  | Completes
  | Fails (e : exn)
  | Interrupted.   (* KeyboardInterrupt *)

Inductive boot_action :=
  | BootLog (lv : level) (msg : string)
  | Stdout (line : string)
  | LoadTtsPipeline (model : string)
  | MakeDirs (dir : string)
  | RegisterHandler (chats : list Z)
  | CheckFfmpeg (args : list pyval)
  | ClientStart
  | RunUntilDisconnected.

(** What the outside world does while the script starts. *)
Record boot_env := {
  api_id : result Z;                  (* int(os.getenv('API_ID')) *)
  tts_load : result ();               (* pipeline("text-to-speech", ...) *)
  cuda_available : bool;
  output_dir_exists : bool;           (* os.path.exists(AUDIO_OUTPUT_DIR) *)
  makedirs : result ();               (* os.makedirs(AUDIO_OUTPUT_DIR) *)
  ffmpeg_version : proc_outcome;      (* the process FFMPEG_PATH -version *)
  client_start : await_outcome;       (* await client.start(phone=PHONE_NUMBER) *)
  until_disconnected : await_outcome; (* await client.run_until_disconnected() *)
}.

Fixpoint py_repeat (s : string) (n : nat) : string :=
  match n with
  | O => EmptyString
  | S k => s +:+ py_repeat s k
  end.

(** Does [s] start with one of the line boundaries of
    [str.splitlines]: LF, VT, FF, CR, FS, GS, RS, and in UTF-8 the next
    line character U+0085 and the separators U+2028 and U+2029. *)
Definition at_line_boundary (s : string) : bool :=
  match s with
  | EmptyString => false
  | String c rest =>
      let n := nat_of_ascii c in
      bool_decide (n ∈ [10; 11; 12; 13; 28; 29; 30]%nat)
      || match rest with
         | EmptyString => false
         | String d rest' =>
             bool_decide (n = 194%nat /\ nat_of_ascii d = 133%nat)
             || bool_decide (n = 226%nat /\ nat_of_ascii d = 128%nat)
                && match rest' with
                   | EmptyString => false
                   | String e _ =>
                       bool_decide (nat_of_ascii e = 168%nat
                                    \/ nat_of_ascii e = 169%nat)
                   end
         end
  end.

(** [s.splitlines()[0]] for a string that is not empty: the characters
    before the first line boundary. *)
Fixpoint until_eol (s : string) : string :=
  match s with
  | EmptyString => EmptyString
  | String c rest =>
      if at_line_boundary s then EmptyString
      else String c (until_eol rest)
  end.
Arguments until_eol : simpl never.

Definition first_line (s : string) : result string :=
  match s with
  | EmptyString => Raises (OtherException "list index out of range")
  | _ => Returns (until_eol s)
  end.

(** [str(l)] for a list of ints. *)
Definition py_str_ints (l : list Z) : string :=
  "[" +:+ py_join ", " (py_str <$> l) +:+ "]".

Section Startup.

Variable channels : list Z.     (* CHANNELS_TO_MONITOR *)
Variable FFMPEG_PATH : pyval.   (* os.getenv('FFMPEG_PATH') *)

Definition rule : boot_action := Stdout (py_repeat "-" 50).

(** Lines 160-181: [main()], with how [asyncio.run] leaves it. *)
Definition main (B : boot_env) : list boot_action * await_outcome :=
  match client_start B with
  | Completes =>
      if decide (channels = [])
      then ([Stdout "Starting Telegram client..."; ClientStart;
             Stdout "Telegram client started.";
             BootLog ERROR "CHANNELS_TO_MONITOR list is empty! Please populate it with channel IDs or usernames.";
             Stdout "Error: CHANNELS_TO_MONITOR list is empty. Populate it and restart."],
            Completes)
      else
        let before :=
          [Stdout "Starting Telegram client..."; ClientStart;
           Stdout "Telegram client started.";
           Stdout ("Monitoring channels: " +:+ py_str_ints channels);
           Stdout ("Audio will be sent to chat: '" +:+ TARGET_CHAT_ENTITY +:+ "'");
           Stdout ("Audio files will be saved in directory: '" +:+ AUDIO_OUTPUT_DIR +:+ "'");
           Stdout "Application started. Waiting for new messages...";
           RunUntilDisconnected] in
        match until_disconnected B with
        | Completes => ((before ++ [Stdout "Telegram client stopped."])%list, Completes)
        | other => (before, other)
        end
  | other => ([Stdout "Starting Telegram client..."; ClientStart], other)
  end.

(** Lines 183-215: the [__main__] block; the exit status of the
    process comes with the actions. *)
Definition main_block (B : boot_env) : list boot_action * Z :=
  let args := [FFMPEG_PATH; PyStr "-version"] in
  let failed (line : string) : list boot_action * Z :=
    ([CheckFfmpeg args; rule; Stdout line; rule], 1) in
  match subprocess_run args (ffmpeg_version B) with
  | Raises (FileNotFoundError _) =>
      failed ("ERROR: FFmpeg not found at path " +:+ py_format FFMPEG_PATH
                +:+ ". Ensure FFmpeg is installed and the path is correct.")
  | Raises (CalledProcessError rc msg out err) =>
      failed ("ERROR: Could not run FFmpeg: " +:+ msg)
  | Raises (OtherException msg) =>
      failed ("ERROR: Unknown error while checking FFmpeg: " +:+ msg)
  | Returns result =>
      match first_line (cp_stdout result) with
      | Raises e =>
          failed ("ERROR: Unknown error while checking FFmpeg: " +:+ exn_str e)
      | Returns version =>
          let '(tr, out) := main B in
          let tail :=
            match out with
            | Completes => []
            | Interrupted => [Stdout "Application stopped by user."]
            | Fails e => [BootLog ERROR "An unexpected error occurred:"]
            end in
          ((CheckFfmpeg args :: BootLog INFO ("FFmpeg version: " +:+ version) :: tr
              ++ tail)%list, 0)
      end
  end.

(** The whole script, from its first line: the module level statements
    (lines 14-58), the registration of the handler (line 62) and the
    [__main__] block.  An exception nobody catches ends the process
    with status 1; [exit()] ends it with status 0. *)
Definition script (B : boot_env) : list boot_action * Z :=
  match api_id B with
  | Raises _ => ([], 1)
  | Returns _ =>
      let loading :=
        [BootLog INFO ("Loading TTS pipeline with model: " +:+ TTS_MODEL_NAME +:+ "...");
         LoadTtsPipeline TTS_MODEL_NAME] in
      match tts_load B with
      | Raises e =>
          ((loading ++
            [BootLog ERROR ("Error loading TTS pipeline: " +:+ exn_str e);
             BootLog ERROR "Please ensure the transformers library is correctly installed (version 4.20+) and torch is installed with required dependencies."])%list,
           0)
      | Returns _ =>
          let loaded :=
            (loading ++
             [BootLog INFO "TTS pipeline successfully loaded.";
              BootLog INFO (if cuda_available B then "Using GPU for TTS."
                            else "Using CPU for TTS.")])%list in
          let continue (dir : list boot_action) : list boot_action * Z :=
            let '(tr, status) := main_block B in
            ((loaded ++ dir ++ RegisterHandler channels :: tr)%list, status) in
          if output_dir_exists B then continue []
          else match makedirs B with
               | Raises _ => ((loaded ++ [MakeDirs AUDIO_OUTPUT_DIR])%list, 1)
               | Returns _ =>
                   continue [MakeDirs AUDIO_OUTPUT_DIR;
                             BootLog INFO ("Created audio directory: " +:+ AUDIO_OUTPUT_DIR)]
               end
      end
  end.

End Startup.

(** ** Vocabulary of the statements *)

(** Every character of [s] satisfies [P]. *)
Fixpoint all_chars (P : ascii -> Prop) (s : string) : Prop :=
  match s with
  | EmptyString => True
  | String a rest => P a /\ all_chars P rest
  end.

(** The characters of a Python decimal numeral. *)
Definition numeral_char (a : ascii) : Prop :=
  a = "-"%char \/ (48 <= N_of_ascii a <= 57)%N.

(** [x] occurs in [s]. *)
Definition contains (s x : string) : Prop :=
  exists pre post, s = pre +:+ x +:+ post.

(** The file that [path] names in working directory [cwd] is among [files]. *)
Definition on_disk (cwd path : string) (files : gset string) : Prop :=
  Path.abspath cwd path ∈ files.

Definition is_SendFile (a : action) : bool :=
  match a with SendFile _ _ _ => true | _ => false end.

Definition is_SubprocessRun (a : action) : bool :=
  match a with SubprocessRun _ => true | _ => false end.

(** The calls through which a run can put a file on disk. *)
Definition creates_file (a : action) : bool :=
  match a with SfWrite _ _ | SubprocessRun _ => true | _ => false end.

(** The calls of what follows the transcoding: the deletion of the WAV
    file and the delivery. *)
Definition after_transcoding (a : action) : bool :=
  match a with
  | OsRemove _ | GetEntity (ByName _) | SendFile _ _ _ => true
  | _ => false
  end.

Definition is_SfWrite (a : action) : bool :=
  match a with SfWrite _ _ => true | _ => false end.

Definition is_TtsPipeline (a : action) : bool :=
  match a with TtsPipeline _ => true | _ => false end.

(** The look-up of the source chat and the log records: what a run does
    before it has anything to synthesize. *)
Definition looks_or_logs (a : action) : bool :=
  match a with
  | GetEntity (ById _) | Log _ _ => true
  | _ => false
  end.

(** The FFmpeg check of the [__main__] block goes through: the program
    completes with status 0 and has printed something. *)
Definition version_check_passes (o : proc_outcome) : bool :=
  match o with
  | ProcCompleted 0 (String _ _) _ => true
  | _ => false
  end.

(** The message has text and the TTS pipeline gives [out], which is not
    empty: the run gets to line 95. *)
Definition synthesizes (ev : event) (E : env) (out : tts_output) : Prop :=
  falsy (ev_text ev) = false /\ tts E = Returns out
  /\ size (squeeze (audio out)) <> 0%nat.

(** ... and [sf.write] returns with the file in place: line 109. *)
Definition writes (ev : event) (E : env) (out : tts_output) : Prop :=
  synthesizes ev E out /\ sf_write E = Returns true.

(** ... and the file opens and is readable: line 123. *)
Definition verifies (ev : event) (E : env) (out : tts_output) : Prop :=
  writes ev E out /\ wave_open E = Returns () /\ access_r_ok E = true.

(** ... and FFmpeg completes with status 0: line 139. *)
Definition transcodes (ev : event) (E : env) (out : tts_output) : Prop :=
  verifies ev E out /\ exists so se, ffmpeg E = ProcCompleted 0 so se.

(** The chat title the handler works with after lines 66-72. *)
Definition chat_title_of (ev : event) (E : env) : pyval :=
  match chat_lookup E with
  | Returns chat_entity => getattr_title chat_entity (ev_chat_id ev)
  | Raises _ => PyStr "Unknown"
  end.

Definition with_chat_lookup (l : result entity) (E : env) : env :=
  {| now := now E; chat_lookup := l; tts := tts E; sf_write := sf_write E;
     wave_open := wave_open E; access_r_ok := access_r_ok E; ffmpeg := ffmpeg E;
     os_remove := os_remove E; target_lookup := target_lookup E;
     send_file := send_file E;
     write_leaves_file := write_leaves_file E;
     ffmpeg_leaves_output := ffmpeg_leaves_output E |}.

(** The start-up got past the module level statements. *)
Definition module_loads (B : boot_env) : Prop :=
  (exists n, api_id B = Returns n) /\ tts_load B = Returns ()
  /\ (output_dir_exists B = true \/ makedirs B = Returns ()).

(** The FFmpeg check of the [__main__] block goes wrong: the path does
    not resolve, the program cannot be launched, or it completes with a
    status other than 0. *)
Definition ffmpeg_unusable (o : proc_outcome) : Prop :=
  match o with
  | ProcCompleted rc _ _ => rc <> 0
  | _ => True
  end.

(** ** Sample data *)

Module Sample.

Definition cwd : string := "/srv/bot".
Definition ffmpeg_path : pyval := PyStr "/usr/bin/ffmpeg".

Definition ev : event :=
  {| ev_chat_id := -1001114591086; ev_id := 42; ev_text := PyStr "Hello world" |}.

Definition channel : entity :=
  {| title := Some (PyStr "News"); username := Some PyNone |}.
Definition user : entity :=
  {| title := None; username := Some (PyStr "alice") |}.
Definition bare : entity := {| title := None; username := None |}.
Definition me : entity :=
  {| title := None; username := Some (PyStr "bob") |}.

Definition speech : tts_output :=
  {| audio := {| shape := [1; 3]%nat |}; sampling_rate := 16000 |}.
Definition silence : tts_output :=
  {| audio := {| shape := [1; 0]%nat |}; sampling_rate := 16000 |}.

(** Every collaborator does its part. *)
Definition ok : env :=
  {| now := 3400000001 # 2; chat_lookup := Returns channel; tts := Returns speech;
     sf_write := Returns true; wave_open := Returns (); access_r_ok := true;
     ffmpeg := ProcCompleted 0 "done" EmptyString; os_remove := Returns ();
     target_lookup := Returns me; send_file := Returns ();
     write_leaves_file := false; ffmpeg_leaves_output := false |}.

Definition with_tts (r : result tts_output) (E : env) : env :=
  {| now := now E; chat_lookup := chat_lookup E; tts := r; sf_write := sf_write E;
     wave_open := wave_open E; access_r_ok := access_r_ok E; ffmpeg := ffmpeg E;
     os_remove := os_remove E; target_lookup := target_lookup E;
     send_file := send_file E;
     write_leaves_file := write_leaves_file E;
     ffmpeg_leaves_output := ffmpeg_leaves_output E |}.

Definition with_sf_write (r : result bool) (E : env) : env :=
  {| now := now E; chat_lookup := chat_lookup E; tts := tts E; sf_write := r;
     wave_open := wave_open E; access_r_ok := access_r_ok E; ffmpeg := ffmpeg E;
     os_remove := os_remove E; target_lookup := target_lookup E;
     send_file := send_file E;
     write_leaves_file := write_leaves_file E;
     ffmpeg_leaves_output := ffmpeg_leaves_output E |}.

Definition with_wave_open (r : result ()) (E : env) : env :=
  {| now := now E; chat_lookup := chat_lookup E; tts := tts E; sf_write := sf_write E;
     wave_open := r; access_r_ok := access_r_ok E; ffmpeg := ffmpeg E;
     os_remove := os_remove E; target_lookup := target_lookup E;
     send_file := send_file E;
     write_leaves_file := write_leaves_file E;
     ffmpeg_leaves_output := ffmpeg_leaves_output E |}.

Definition with_access (b : bool) (E : env) : env :=
  {| now := now E; chat_lookup := chat_lookup E; tts := tts E; sf_write := sf_write E;
     wave_open := wave_open E; access_r_ok := b; ffmpeg := ffmpeg E;
     os_remove := os_remove E; target_lookup := target_lookup E;
     send_file := send_file E;
     write_leaves_file := write_leaves_file E;
     ffmpeg_leaves_output := ffmpeg_leaves_output E |}.

Definition with_ffmpeg (o : proc_outcome) (E : env) : env :=
  {| now := now E; chat_lookup := chat_lookup E; tts := tts E; sf_write := sf_write E;
     wave_open := wave_open E; access_r_ok := access_r_ok E; ffmpeg := o;
     os_remove := os_remove E; target_lookup := target_lookup E;
     send_file := send_file E;
     write_leaves_file := write_leaves_file E;
     ffmpeg_leaves_output := ffmpeg_leaves_output E |}.

Definition with_os_remove (r : result ()) (E : env) : env :=
  {| now := now E; chat_lookup := chat_lookup E; tts := tts E; sf_write := sf_write E;
     wave_open := wave_open E; access_r_ok := access_r_ok E; ffmpeg := ffmpeg E;
     os_remove := r; target_lookup := target_lookup E;
     send_file := send_file E;
     write_leaves_file := write_leaves_file E;
     ffmpeg_leaves_output := ffmpeg_leaves_output E |}.

(** FFmpeg runs and completes with status 1. *)
Definition ffmpeg_fails : env :=
  with_ffmpeg (ProcCompleted 1 EmptyString "Invalid data found") ok.

(** The FFmpeg path does not resolve. *)
Definition ffmpeg_missing : env :=
  with_ffmpeg (ProcNotFound "[Errno 2] No such file or directory") ok.

(** [os.remove] raises. *)
Definition remove_fails : env :=
  with_os_remove (Raises (OtherException "[WinError 32] file in use")) ok.

(** The TTS pipeline gives an array without samples. *)
Definition no_samples : env := with_tts (Returns silence) ok.

(** A message without text. *)
Definition ev_photo : event :=
  {| ev_chat_id := -1001114591086; ev_id := 43; ev_text := PyNone |}.

(** The TTS pipeline raises. *)
Definition tts_raises : env :=
  with_tts (Raises (OtherException "CUDA out of memory")) ok.

(** [sf.write] raises on the data, after it has created the file. *)
Definition write_raises : env :=
  {| now := now ok; chat_lookup := chat_lookup ok; tts := tts ok;
     sf_write := Raises (OtherException "Error opening file: System error.");
     wave_open := wave_open ok; access_r_ok := access_r_ok ok; ffmpeg := ffmpeg ok;
     os_remove := os_remove ok; target_lookup := target_lookup ok;
     send_file := send_file ok;
     write_leaves_file := true; ffmpeg_leaves_output := ffmpeg_leaves_output ok |}.

(** The look-up of the source chat raises. *)
Definition lookup_raises : env :=
  with_chat_lookup
    (Raises (OtherException "Cannot find any entity corresponding to -1001114591086"))
    ok.


(** FFmpeg is found and cannot be launched. *)
Definition ffmpeg_denied : env :=
  with_ffmpeg (ProcLaunchError "[Errno 13] Permission denied") ok.

(** The transfer of the MP3 file raises. *)
Definition send_raises : env :=
  {| now := now ok; chat_lookup := chat_lookup ok; tts := tts ok;
     sf_write := sf_write ok; wave_open := wave_open ok;
     access_r_ok := access_r_ok ok; ffmpeg := ffmpeg ok; os_remove := os_remove ok;
     target_lookup := target_lookup ok;
     send_file := Raises (OtherException "Connection reset");
     write_leaves_file := write_leaves_file ok;
     ffmpeg_leaves_output := ffmpeg_leaves_output ok |}.

(** The look-up of the source chat raises. *)
Definition chat_unknown : env :=
  with_chat_lookup (Raises (OtherException "Cannot find any entity")) ok.

Definition wav : string :=
  "/srv/bot/generated_audio/msg_1001114591086_42_1700000000.wav".
Definition mp3 : string :=
  "generated_audio/msg_1001114591086_42_1700000000.mp3".

(** The collaborators at start-up, all doing their part. *)
Definition boot : boot_env :=
  {| api_id := Returns 12345; tts_load := Returns (); cuda_available := false;
     output_dir_exists := true; makedirs := Returns ();
     ffmpeg_version := ProcCompleted 0 "ffmpeg version 6.0" EmptyString;
     client_start := Completes; until_disconnected := Completes |}.

(** Loading the TTS pipeline raises. *)
Definition boot_without_tts : boot_env :=
  {| api_id := Returns 12345;
     tts_load := Raises (OtherException "No module named 'torch'");
     cuda_available := false; output_dir_exists := true; makedirs := Returns ();
     ffmpeg_version := ProcCompleted 0 "ffmpeg version 6.0" EmptyString;
     client_start := Completes; until_disconnected := Completes |}.

(** The user interrupts the wait for messages. *)
Definition boot_interrupted : boot_env :=
  {| api_id := Returns 12345; tts_load := Returns (); cuda_available := false;
     output_dir_exists := true; makedirs := Returns ();
     ffmpeg_version := ProcCompleted 0 "ffmpeg version 6.0" EmptyString;
     client_start := Completes; until_disconnected := Interrupted |}.

(** The FFmpeg path does not resolve at start-up. *)
Definition boot_without_ffmpeg : boot_env :=
  {| api_id := Returns 12345; tts_load := Returns (); cuda_available := false;
     output_dir_exists := true; makedirs := Returns ();
     ffmpeg_version := ProcNotFound "[Errno 2] No such file or directory";
     client_start := Completes; until_disconnected := Completes |}.

End Sample.

(** * Symbolic execution of the handler *)

Ltac unfold_handler :=
  unfold run, handler_new_message, audio_stage, send_stage, resolve_chat_title,
    soundfile_write, os_path_exists, remove, ffmpeg_run, ffmpeg_output,
    call, logging, emit, lift, get_fs, set_fs, try_except, except_Exception,
    bind, ret, return_.

Example base_filename_ex :
  Naming.base_filename (-1001114591086) 42 (1700000000 # 1)
  = "msg_1001114591086_42_1700000000".
Proof. vm_compute. reflexivity. Qed.

Example wav_filepath_ex :
  Naming.wav_filepath "/srv/bot" (-1001114591086) 42 (3400000001 # 2)
  = "/srv/bot/generated_audio/msg_1001114591086_42_1700000000.wav".
Proof. vm_compute. reflexivity. Qed.

(** * Facts about strings and decimal numerals *)

Lemma app_cons (a : ascii) (s t : string) : String a s +:+ t = String a (s +:+ t).
Proof. reflexivity. Qed.

Lemma app_assoc_str (s t u : string) : (s +:+ t) +:+ u = s +:+ t +:+ u.
Proof.
  induction s as [|a s IH]; [reflexivity|].
  rewrite !app_cons. by rewrite IH.
Qed.

Lemma pretty_N_char_numeral (x : N) : numeral_char (pretty_N_char x).
Proof.
  right. unfold pretty_N_char.
  repeat case_match; vm_compute; split; discriminate.
Qed.

Lemma pretty_N_go_numeral (x : N) (s : string) :
  all_chars numeral_char s -> all_chars numeral_char (pretty_N_go x s).
Proof.
  revert s. induction (N.lt_wf_0 x) as [x _ IH]; intros s Hs.
  destruct (decide (x = 0%N)) as [->|Hx].
  - by rewrite pretty_N_go_0.
  - rewrite pretty_N_go_step by lia.
    apply IH; [apply N.div_lt; lia|].
    split; [apply pretty_N_char_numeral | exact Hs].
Qed.

Lemma pretty_N_numeral (x : N) : all_chars numeral_char (pretty x).
Proof.
  unfold pretty, pretty_N. case_decide.
  - split; [right; vm_compute; split; discriminate | exact I].
  - by apply pretty_N_go_numeral.
Qed.

Lemma py_str_numeral (z : Z) : all_chars numeral_char (py_str z).
Proof.
  unfold py_str, pretty, pretty_Z. destruct z as [|p|p].
  - split; [right; vm_compute; split; discriminate | exact I].
  - apply pretty_N_numeral.
  - rewrite app_cons. split; [by left | apply pretty_N_numeral].
Qed.

Lemma py_str_inj (x y : Z) : py_str x = py_str y -> x = y.
Proof. unfold py_str. apply (inj pretty). Qed.

(** Two strings that agree up to and including the first occurrence of a
    separator which their heads do not contain. *)
Lemma split_at_sep (P : ascii -> Prop) (c : ascii) (a1 a2 r1 r2 : string) :
  ~ P c ->
  all_chars P a1 -> all_chars P a2 ->
  a1 +:+ String c r1 = a2 +:+ String c r2 ->
  a1 = a2 /\ r1 = r2.
Proof.
  intros Hc. revert a2.
  induction a1 as [|x a1 IH]; intros [|y a2] H1 H2 Heq.
  - by injection Heq.
  - rewrite app_cons in Heq. injection Heq as <- _. by destruct H2.
  - rewrite app_cons in Heq. injection Heq as -> _. by destruct H1.
  - rewrite !app_cons in Heq. injection Heq as -> Heq.
    destruct H1 as [_ H1], H2 as [_ H2].
    destruct (IH a2 H1 H2 Heq) as [-> ->]. done.
Qed.

Lemma underscore_not_numeral : ~ numeral_char "_"%char.
Proof. intros [H|[H1 H2]]; [discriminate | vm_compute in H2; by apply H2]. Qed.

Lemma dot_not_numeral : ~ numeral_char "."%char.
Proof. intros [H|[H1 H2]]; [discriminate | vm_compute in H1; by apply H1]. Qed.

(** * Facts about the file naming *)

Lemma base_filename_inj (c1 m1 c2 m2 : Z) (t1 t2 : Q) (ext : string) :
  Naming.base_filename c1 m1 t1 +:+ String "."%char ext
  = Naming.base_filename c2 m2 t2 +:+ String "."%char ext ->
  Z.abs c1 = Z.abs c2 /\ m1 = m2 /\ py_int t1 = py_int t2.
Proof.
  unfold Naming.base_filename. intros Heq.
  rewrite !app_assoc_str in Heq.
  apply (inj (String.app "msg_")) in Heq.
  apply (split_at_sep numeral_char) in Heq as [Hc Heq];
    [|apply underscore_not_numeral|apply py_str_numeral..].
  apply (split_at_sep numeral_char) in Heq as [Hm Heq];
    [|apply underscore_not_numeral|apply py_str_numeral..].
  apply (split_at_sep numeral_char) in Heq as [Ht _];
    [|apply dot_not_numeral|apply py_str_numeral..].
  by apply py_str_inj in Hc, Hm, Ht.
Qed.

Lemma join_relative_inj (a p q : string) :
  Path.is_abs p = false -> Path.is_abs q = false ->
  Path.join a p = Path.join a q -> p = q.
Proof.
  unfold Path.join. intros -> ->.
  destruct (decide (a = EmptyString)); [done|].
  destruct (Path.ends_with_sep a); intros Heq.
  - by apply (inj (String.app a)) in Heq.
  - apply (inj (String.app a)) in Heq. by apply (inj (String.app "/")) in Heq.
Qed.

Lemma in_output_dir (name : string) :
  Path.is_abs name = false ->
  Path.join AUDIO_OUTPUT_DIR name = "generated_audio/" +:+ name.
Proof. unfold Path.join. intros ->. reflexivity. Qed.

Lemma base_filename_relative (c m : Z) (t : Q) (ext : string) :
  Path.is_abs (Naming.base_filename c m t +:+ ext) = false.
Proof. reflexivity. Qed.

Lemma wav_filepath_relative_part (cwd : string) (c m : Z) (t : Q) :
  Naming.wav_filepath cwd c m t
  = Path.join cwd ("generated_audio/" +:+ Naming.base_filename c m t +:+ ".wav").
Proof.
  unfold Naming.wav_filepath.
  rewrite in_output_dir by apply base_filename_relative.
  reflexivity.
Qed.

Lemma wav_filepath_eq_iff (cwd : string) (c1 m1 c2 m2 : Z) (t1 t2 : Q) :
  Naming.wav_filepath cwd c1 m1 t1 = Naming.wav_filepath cwd c2 m2 t2
  <-> Z.abs c1 = Z.abs c2 /\ m1 = m2 /\ py_int t1 = py_int t2.
Proof.
  split.
  - rewrite !wav_filepath_relative_part. intros Heq.
    apply join_relative_inj in Heq; [|reflexivity..].
    apply (inj (String.app "generated_audio/")) in Heq.
    by apply base_filename_inj in Heq.
  - intros (Hc & -> & Ht).
    unfold Naming.wav_filepath, Naming.base_filename. by rewrite Hc, Ht.
Qed.

Lemma length_app_str (s t : string) :
  String.length (s +:+ t) = (String.length s + String.length t)%nat.
Proof. induction s as [|a s IH]; [done|]. rewrite app_cons. simpl. by rewrite IH. Qed.

Lemma mp3_filepath_abs (cwd : string) (c m : Z) (t : Q) :
  Path.abspath cwd (Naming.mp3_filepath c m t)
  = Path.join cwd ("generated_audio/" +:+ Naming.base_filename c m t +:+ ".mp3").
Proof.
  unfold Naming.mp3_filepath.
  rewrite in_output_dir by apply base_filename_relative.
  reflexivity.
Qed.

(** The WAV file and the MP3 file of a run are two files. *)
Lemma artifact_keys_differ (cwd : string) (c m : Z) (t : Q) :
  Path.abspath cwd (Naming.wav_filepath cwd c m t)
  <> Path.abspath cwd (Naming.mp3_filepath c m t).
Proof.
  rewrite mp3_filepath_abs, wav_filepath_relative_part.
  set (rw := "generated_audio/" +:+ Naming.base_filename c m t +:+ ".wav").
  set (rm := "generated_audio/" +:+ Naming.base_filename c m t +:+ ".mp3").
  assert (Hne : rw <> rm).
  { unfold rw, rm. intros Heq. apply (inj (String.app _)) in Heq.
    apply (inj (String.app _)) in Heq. discriminate. }
  assert (Hlen : String.length rw = String.length rm).
  { unfold rw, rm. by rewrite !length_app_str. }
  assert (Hrw : Path.is_abs rw = false) by reflexivity.
  assert (Hrm : Path.is_abs rm = false) by reflexivity.
  clearbody rw rm.
  unfold Path.abspath at 1.
  destruct (Path.is_abs (Path.join cwd rw)) eqn:Habs; intros Heq.
  - by apply join_relative_inj in Heq.
  - apply join_relative_inj in Heq; [|done..].
    revert Heq. unfold Path.join. rewrite Hrw.
    destruct (decide (cwd = EmptyString)) as [->|Hcwd]; [done|].
    intros Heq. apply (f_equal String.length) in Heq.
    destruct cwd as [|a rest]; [done|].
    destruct (Path.ends_with_sep (String a rest));
      rewrite ?app_cons in Heq; simpl in Heq;
      repeat (rewrite length_app_str in Heq; simpl in Heq); lia.
Qed.

Lemma caption_contains_title (chat_title : pyval) (message_id : Z) :
  contains (caption chat_title message_id) (py_format chat_title).
Proof.
  exists "Audio from channel '", ("' (Message #" +:+ py_str message_id +:+ ")").
  reflexivity.
Qed.

Lemma caption_contains_id (chat_title : pyval) (message_id : Z) :
  contains (caption chat_title message_id) (py_str message_id).
Proof.
  exists ("Audio from channel '" +:+ py_format chat_title +:+ "' (Message #"), ")".
  unfold caption. by rewrite !app_assoc_str.
Qed.

(** Squeezing drops axes of length one only, so it keeps the number of
    samples. *)
Lemma size_squeeze (a : ndarray) : size (squeeze a) = size a.
Proof.
  unfold size, squeeze. simpl.
  induction (shape a) as [|d l IH]; [done|].
  rewrite filter_cons. destruct (decide (d = 1%nat)) as [->|Hd].
  - rewrite decide_False by (intros Hne; by apply Hne). rewrite IH. simpl. lia.
  - rewrite decide_True by done. simpl. by rewrite IH.
Qed.

(** * Facts about the sets of files *)

Lemma in_added (k : string) (f : gset string) : bool_decide (k ∈ {[k]} ∪ f) = true.
Proof. apply bool_decide_eq_true_2, elem_of_union. left. by apply elem_of_singleton. Qed.

Lemma in_added_before (k k' : string) (f : gset string) :
  bool_decide (k ∈ {[k']} ∪ ({[k]} ∪ f)) = true.
Proof.
  apply bool_decide_eq_true_2, elem_of_union. right.
  apply elem_of_union. left. by apply elem_of_singleton.
Qed.

Lemma not_in_removed (k : string) (f : gset string) :
  bool_decide (k ∈ f ∖ {[k]}) = false.
Proof.
  apply bool_decide_eq_false_2. rewrite elem_of_difference, elem_of_singleton. tauto.
Qed.

Lemma added_in (k : string) (g : gset string) : k ∈ {[k]} ∪ g.
Proof. rewrite elem_of_union, elem_of_singleton. tauto. Qed.

Lemma added_in_before (k k' : string) (g : gset string) : k ∈ {[k']} ∪ ({[k]} ∪ g).
Proof. rewrite !elem_of_union, !elem_of_singleton. tauto. Qed.

Lemma swap_artifacts (a b : string) (g : gset string) :
  a <> b -> ({[b]} ∪ ({[a]} ∪ g)) ∖ {[a]} = {[b]} ∪ g ∖ {[a]}.
Proof.
  intros Hab. apply set_eq. intros x.
  rewrite !elem_of_difference, !elem_of_union, !elem_of_difference, !elem_of_singleton.
  split; [intros [[->|[->|?]] ?]; tauto | intros [->|[? ?]]; split; auto; congruence].
Qed.

(** * Facts about runs of the handler *)

Ltac set_facts :=
  repeat (first [rewrite in_added | rewrite in_added_before | rewrite not_in_removed];
          simpl).

Ltac in_actions := apply list_elem_of_In; simpl; tauto.

Ltac still_there :=
  repeat match goal with
         | |- context [if ?b then _ else _] => is_var b; destruct b
         end;
  first [apply added_in | apply added_in_before].

(** Runs the handler of the goal up to the FFmpeg call, from a proof
    [Hv] that the run verifies its WAV file. *)
Ltac reach_transcoding Hv E :=
  destruct Hv as (((Htext & Htts & Hsize) & Hsw) & Hwo & Hac);
  unfold exit_of, files_of, actions_of, on_disk; unfold_handler;
  destruct E as [nw cl ts sw wo ac ff rm tl sf wl fl]; simpl in *; subst;
  rewrite Htext;
  destruct cl; simpl; rewrite bool_decide_eq_false_2 by done; simpl; set_facts.

Section HandlerFacts.

Variable cwd : string.
Variable P : pyval.

(** No exception leaves the handler. *)
Lemma handler_returns ev E f : exists o, exit_of (run cwd P ev E f) = Some o.
Proof.
  unfold exit_of. unfold_handler.
  destruct E as [nw cl ts sw wo ac ff rm tl sf wl fl]; simpl.
  destruct cl; simpl; (destruct (falsy (ev_text ev)); simpl; [eauto|]);
  (destruct ts as [out|]; simpl; [|eauto]);
  (case_bool_decide; simpl; [eauto|]).
  all: destruct sw as [[|]|]; simpl; set_facts; [| eauto..].
  all: destruct wo as [[]|]; simpl; [|eauto].
  all: destruct ac; simpl; [|eauto].
  all: destruct ff as [?|rc so se|?]; simpl; [eauto| |eauto].
  all: case_decide; simpl; [|eauto].
  all: destruct rm as [[]|]; simpl; set_facts.
  all: destruct tl; simpl; [|eauto].
  all: destruct sf as [[]|]; simpl; eauto.
Qed.

(** A run is left through [Delivered] only if every stage up to the
    transcoding, the look-up of the target and the transfer went well. *)
Lemma delivered_inv ev E f :
  exit_of (run cwd P ev E f) = Some Delivered ->
  (exists out, transcodes ev E out)
  /\ (exists target, target_lookup E = Returns target)
  /\ send_file E = Returns ().
Proof.
  unfold exit_of, transcodes, verifies, writes, synthesizes. unfold_handler.
  destruct E as [nw cl ts sw wo ac ff rm tl sf wl fl]; simpl.
  destruct cl; simpl; (destruct (falsy (ev_text ev)); simpl; [done|]);
  (destruct ts as [out|]; simpl; [|done]);
  (case_bool_decide; simpl; [done|]).
  all: destruct sw as [[|]|]; simpl; set_facts; [| done..].
  all: destruct wo as [[]|]; simpl; [|done].
  all: destruct ac; simpl; [|done].
  all: destruct ff as [?|rc so se|?]; simpl; [done| |done].
  all: case_decide; simpl; [subst rc|done].
  all: destruct rm as [[]|]; simpl; set_facts.
  all: destruct tl; simpl; [|done].
  all: destruct sf as [[]|]; simpl; [|done].
  all: intros _; eauto 20.
Qed.

(** Once written, the WAV file stays on disk unless the run gets past
    the transcoding and [os.remove] does its work. *)
Lemma wav_kept ev E f out :
  writes ev E out ->
  ~ (transcodes ev E out /\ os_remove E = Returns ()) ->
  on_disk cwd (Naming.wav_filepath cwd (ev_chat_id ev) (ev_id ev) (now E))
    (files_of (run cwd P ev E f)).
Proof.
  intros ((Htext & Htts & Hsize) & Hsw).
  unfold transcodes, verifies, writes, synthesizes.
  unfold exit_of, files_of, actions_of, on_disk; unfold_handler.
  destruct E as [nw cl ts sw wo ac ff rm tl sf wl fl]; simpl in *; subst.
  rewrite Htext. intros Hnot.
  destruct cl; simpl; rewrite bool_decide_eq_false_2 by done; simpl; set_facts.
  all: destruct wo as [[]|]; simpl; [|still_there].
  all: destruct ac; simpl; [|still_there].
  all: destruct ff as [?|rc so se|?]; simpl; [still_there| |still_there].
  all: case_decide; simpl; [subst rc|still_there].
  all: destruct rm as [[]|]; simpl; set_facts; [exfalso; apply Hnot; eauto 20|].
  all: destruct tl; simpl; [|still_there].
  all: destruct sf as [[]|]; simpl; still_there.
Qed.

End HandlerFacts.

(** * The naming scheme *)

(** Claim C2, as the code has it.  Two runs get the same WAV path exactly
    when they agree on the absolute value of the channel id, on the
    message id and on the whole second of the clock reading; they get
    two paths as soon as one of the three differs. *)
Theorem wav_filepath_distinct_iff (cwd : string) (c1 m1 c2 m2 : Z) (t1 t2 : Q) :
  Naming.wav_filepath cwd c1 m1 t1 <> Naming.wav_filepath cwd c2 m2 t2
  <-> Z.abs c1 <> Z.abs c2 \/ m1 <> m2 \/ py_int t1 <> py_int t2.
Proof.
  rewrite wav_filepath_eq_iff.
  destruct (decide (Z.abs c1 = Z.abs c2)), (decide (m1 = m2)),
    (decide (py_int t1 = py_int t2)); tauto.
Qed.

(** Claim C2, as stated, fails: two runs for the same channel and
    message whose clock readings, a quarter and three quarters into the
    same second, differ, get one and the same WAV path. *)
Lemma same_second_same_path :
  ~ (6800000001 # 4 == 6800000003 # 4)%Q
  /\ py_int (6800000001 # 4) = py_int (6800000003 # 4)
  /\ Naming.wav_filepath "/srv/bot" (-1001114591086) 42 (6800000001 # 4)
     = Naming.wav_filepath "/srv/bot" (-1001114591086) 42 (6800000003 # 4).
Proof.
  split; [|split].
  - intros H. vm_compute in H. discriminate.
  - vm_compute. reflexivity.
  - apply wav_filepath_eq_iff. repeat split; vm_compute; reflexivity.
Qed.

(** Claim C9.  The base name is built from [abs(chat_id)]: a channel id
    other than 0 and its opposite are two ids with, for equal message
    ids and clock readings, the same base name and the same file
    paths. *)
Theorem sign_of_chat_id_ignored (cwd : string) (c m : Z) (t : Q) :
  c <> 0 ->
  - c <> c
  /\ Naming.base_filename (- c) m t = Naming.base_filename c m t
  /\ Naming.wav_filepath cwd (- c) m t = Naming.wav_filepath cwd c m t
  /\ Naming.mp3_filepath (- c) m t = Naming.mp3_filepath c m t.
Proof.
  intros Hc. split; [lia|].
  unfold Naming.wav_filepath, Naming.mp3_filepath, Naming.base_filename.
  by rewrite Z.abs_opp.
Qed.

Lemma sign_of_chat_id_ignored_witness :
  1001114591086 <> 0
  /\ Naming.base_filename (- 1001114591086) 42 (1700000000 # 1)
     = Naming.base_filename 1001114591086 42 (1700000000 # 1).
Proof.
  split; [lia|].
  apply (sign_of_chat_id_ignored "/srv/bot" 1001114591086 42 (1700000000 # 1)).
  lia.
Defined.

(** * The stages of a run *)

Section Stages.

Variable cwd : string.
Variable P : pyval.

(** Claim C7.  When the message has text and the TTS pipeline gives an
    array that, once squeezed, has no sample, the run is left at line 93
    with the error logged; the files on disk are as before, the run has
    called nothing that creates a file, and the messages that follow are
    handled, on the same files. *)
Theorem empty_audio_aborts_before_any_file ev E f out :
  falsy (ev_text ev) = false ->
  tts E = Returns out ->
  size (squeeze (audio out)) = 0%nat ->
  exit_of (run cwd P ev E f) = Some EmptyAudio
  /\ files_of (run cwd P ev E f) = f
  /\ Forall (fun a => creates_file a = false) (actions_of (run cwd P ev E f))
  /\ Log ERROR "speech_np array is empty. Check TTS pipeline output."
       ∈ actions_of (run cwd P ev E f)
  /\ forall rest,
       (process cwd P ((ev, E) :: rest) f).1.1
       = Some EmptyAudio :: (process cwd P rest f).1.1
       /\ (process cwd P ((ev, E) :: rest) f).1.2 = (process cwd P rest f).1.2.
Proof.
  intros Htext Htts Hsize.
  assert (Hrun : exit_of (run cwd P ev E f) = Some EmptyAudio
                 /\ files_of (run cwd P ev E f) = f
                 /\ Forall (fun a => creates_file a = false)
                      (actions_of (run cwd P ev E f))
                 /\ Log ERROR "speech_np array is empty. Check TTS pipeline output."
                      ∈ actions_of (run cwd P ev E f)).
  { unfold exit_of, files_of, actions_of. unfold_handler.
    destruct E as [nw cl ts sw wo ac ff rm tl sf wl fl]; simpl in *. subst ts.
    rewrite Htext.
    destruct cl; simpl; rewrite bool_decide_eq_true_2 by done; simpl.
    all: repeat split; [repeat constructor | in_actions]. }
  destruct Hrun as (Hexit & Hfiles & Hcalls & Hlog).
  repeat split; try done.
  all: simpl; rewrite Hfiles, Hexit; by destruct (process cwd P rest f) as [[? ?] ?].
Qed.

(** Claim C5.  After [sf.write] has returned, the run checks the file
    before it goes on: if the file is not there it is left at line 107,
    if [wave.open] raises at line 115, if the file is not readable at
    line 120; in each case FFmpeg is not called, and neither is anything
    that comes after the transcoding. *)
Theorem read_back_failure_stops_before_transcoding ev E f out present :
  synthesizes ev E out ->
  sf_write E = Returns present ->
  present = false \/ (exists e, wave_open E = Raises e) \/ access_r_ok E = false ->
  exit_of (run cwd P ev E f)
  = Some (if present
          then match wave_open E with
               | Raises e => WavNotOpened e
               | Returns _ => WavNotReadable
               end
          else WavMissing)
  /\ Forall (fun a => is_SubprocessRun a = false /\ after_transcoding a = false)
       (actions_of (run cwd P ev E f)).
Proof.
  intros (Htext & Htts & Hsize) Hsw Hbad.
  unfold exit_of, files_of, actions_of. unfold_handler.
  destruct E as [nw cl ts sw wo ac ff rm tl sf wl fl]; simpl in *. subst ts sw.
  rewrite Htext.
  destruct cl; simpl; rewrite bool_decide_eq_false_2 by done; simpl.
  all: destruct present; simpl; set_facts; [|split; [done|repeat constructor]].
  all: destruct wo as [[]|?]; simpl; [|split; [done|repeat constructor]].
  all: destruct Hbad as [Hp | [[e' He'] | Hp]]; try discriminate; try subst ac; simpl.
  all: split; [done|repeat constructor].
Qed.

(** Claim C6.  Once the WAV file is verified, the two ways in which the
    transcoding fails are told apart: if the FFmpeg path does not
    resolve the run is left at line 136, with the path in the error
    record; if FFmpeg completes with a status other than 0 it is left at
    line 133, with what FFmpeg wrote to its standard error in the error
    record.  In both cases neither the deletion of the WAV file nor the
    delivery is attempted. *)
Theorem transcoding_failures_told_apart ev E f out :
  verifies ev E out ->
  (forall msg, ffmpeg E = ProcNotFound msg ->
     exit_of (run cwd P ev E f) = Some FfmpegNotFound
     /\ Log ERROR ("FFmpeg not found at path: " +:+ py_format P
                     +:+ ". Check the path or install FFmpeg.")
          ∈ actions_of (run cwd P ev E f))
  /\ (forall rc so se, ffmpeg E = ProcCompleted rc so se -> rc <> 0 ->
     exit_of (run cwd P ev E f) = Some (FfmpegFailed se)
     /\ Log ERROR ("Error converting to MP3: " +:+ se)
          ∈ actions_of (run cwd P ev E f))
  /\ (ffmpeg_unusable (ffmpeg E) ->
      Forall (fun a => after_transcoding a = false) (actions_of (run cwd P ev E f))).
Proof.
  intros Hv. reach_transcoding Hv E.
  all: split; [|split].
  all: try (intros msg ->; simpl; split; [done | in_actions]).
  all: try (intros rc so se -> Hrc; simpl; rewrite decide_False by done; simpl;
            split; [done | in_actions]).
  all: destruct ff as [?|rc ? ?|?]; simpl; intros Hbad;
    try rewrite decide_False by done; simpl; repeat constructor.
Qed.

(** Claim C8.  If [os.remove] raises after a transcoding that went well,
    the error is logged and the run goes on to the delivery: the target
    is looked up, the MP3 file is sent with the caption of the message,
    and with a transfer that goes well the run ends as delivered.  The
    WAV file is still on disk. *)
Theorem failed_deletion_does_not_stop_delivery ev E f out e :
  transcodes ev E out ->
  os_remove E = Raises e ->
  Log ERROR ("Error deleting WAV file: " +:+ exn_str e) ∈ actions_of (run cwd P ev E f)
  /\ GetEntity (ByName TARGET_CHAT_ENTITY) ∈ actions_of (run cwd P ev E f)
  /\ (forall target, target_lookup E = Returns target ->
        SendFile target
          (Naming.mp3_filepath (ev_chat_id ev) (ev_id ev) (now E))
          (caption (chat_title_of ev E) (ev_id ev))
          ∈ actions_of (run cwd P ev E f)
        /\ (send_file E = Returns () -> exit_of (run cwd P ev E f) = Some Delivered))
  /\ on_disk cwd (Naming.wav_filepath cwd (ev_chat_id ev) (ev_id ev) (now E))
       (files_of (run cwd P ev E f)).
Proof.
  intros (Hv & so & se & Hff) Hrm. reach_transcoding Hv E.
  all: destruct tl as [tg|]; simpl.
  all: destruct sf as [[]|]; simpl.
  all: split; [in_actions|split; [in_actions|split]].
  all: try (intros target [= <-]; split; [in_actions|done]).
  all: try (intros target [=]).
  all: still_there.
Qed.

(** Claim C4, as the code has it.  When a run ends as delivered and
    [os.remove] did not raise, the WAV file of the run is not on disk,
    its MP3 file is, the files on disk are those of before without the
    WAV file and with the MP3 file, and the run has sent one file: the
    MP3 file, with a caption in which the chat title and the message id
    occur. *)
Theorem delivered_run_leaves_one_mp3 ev E f :
  exit_of (run cwd P ev E f) = Some Delivered ->
  os_remove E = Returns () ->
  ~ on_disk cwd (Naming.wav_filepath cwd (ev_chat_id ev) (ev_id ev) (now E))
      (files_of (run cwd P ev E f))
  /\ on_disk cwd (Naming.mp3_filepath (ev_chat_id ev) (ev_id ev) (now E))
       (files_of (run cwd P ev E f))
  /\ files_of (run cwd P ev E f)
     = {[Path.abspath cwd (Naming.mp3_filepath (ev_chat_id ev) (ev_id ev) (now E))]}
       ∪ f ∖ {[Path.abspath cwd
                 (Naming.wav_filepath cwd (ev_chat_id ev) (ev_id ev) (now E))]}
  /\ exists target c,
       List.filter is_SendFile (actions_of (run cwd P ev E f))
       = [SendFile target (Naming.mp3_filepath (ev_chat_id ev) (ev_id ev) (now E)) c]
       /\ contains c (py_format (chat_title_of ev E))
       /\ contains c (py_str (ev_id ev)).
Proof.
  intros Hexit Hrm.
  destruct (delivered_inv cwd P ev E f Hexit)
    as ((out & Hv & so & se & Hff) & (target & Htl) & Hsf).
  pose proof (artifact_keys_differ cwd (ev_chat_id ev) (ev_id ev) (now E)) as Hne.
  revert Hne. reach_transcoding Hv E.
  all: intros Hne; rewrite swap_artifacts by done.
  all: repeat split;
    [ rewrite elem_of_union, elem_of_difference, !elem_of_singleton;
      intros [?|[_ ?]]; congruence
    | apply elem_of_union; left; by apply elem_of_singleton
    | eexists _, _; split; [reflexivity|];
      split; [apply caption_contains_title | apply caption_contains_id] ].
Qed.

(** Claim C10.  A look-up of the source chat that raises does not end
    the run: the warning of line 72 is logged, a message with text goes
    on to the TTS call, and how the run is left and the files it leaves
    are those of a run whose look-up went any other way.  When the
    stages after it go through (the audio is transcoded and the target
    is found) the handler calls [send_file] once, on its MP3 file, and
    the caption names the channel as follows: [Unknown] when the look-up
    raised, the title of the entity when it has one, else its user name,
    else the chat id as a string; the run is left as delivered when the
    transfer returns.  No run sends a file under another caption. *)
Theorem title_lookup_never_aborts ev E f :
  (forall l,
     exit_of (run cwd P ev (with_chat_lookup l E) f) = exit_of (run cwd P ev E f)
     /\ files_of (run cwd P ev (with_chat_lookup l E) f) = files_of (run cwd P ev E f))
  /\ (forall e, chat_lookup E = Raises e ->
        Log WARNING ("Could not retrieve chat title for "
                       +:+ py_str (ev_chat_id ev) +:+ ": " +:+ exn_str e)
          ∈ actions_of (run cwd P ev E f)
        /\ (falsy (ev_text ev) = false ->
            TtsPipeline (ev_text ev) ∈ actions_of (run cwd P ev E f)))
  /\ (forall out target,
        transcodes ev E out -> target_lookup E = Returns target ->
        (send_file E = Returns () -> exit_of (run cwd P ev E f) = Some Delivered)
        /\ (forall e, chat_lookup E = Raises e ->
              List.filter is_SendFile (actions_of (run cwd P ev E f))
              = [SendFile target
                   (Naming.mp3_filepath (ev_chat_id ev) (ev_id ev) (now E))
                   ("Audio from channel 'Unknown' (Message #"
                      +:+ py_str (ev_id ev) +:+ ")")])
        /\ (forall ent t, chat_lookup E = Returns ent -> title ent = Some t ->
              List.filter is_SendFile (actions_of (run cwd P ev E f))
              = [SendFile target
                   (Naming.mp3_filepath (ev_chat_id ev) (ev_id ev) (now E))
                   ("Audio from channel '" +:+ py_format t +:+ "' (Message #"
                      +:+ py_str (ev_id ev) +:+ ")")])
        /\ (forall ent u, chat_lookup E = Returns ent ->
              title ent = None -> username ent = Some u ->
              List.filter is_SendFile (actions_of (run cwd P ev E f))
              = [SendFile target
                   (Naming.mp3_filepath (ev_chat_id ev) (ev_id ev) (now E))
                   ("Audio from channel '" +:+ py_format u +:+ "' (Message #"
                      +:+ py_str (ev_id ev) +:+ ")")])
        /\ (forall ent, chat_lookup E = Returns ent ->
              title ent = None -> username ent = None ->
              List.filter is_SendFile (actions_of (run cwd P ev E f))
              = [SendFile target
                   (Naming.mp3_filepath (ev_chat_id ev) (ev_id ev) (now E))
                   ("Audio from channel '" +:+ py_str (ev_chat_id ev)
                      +:+ "' (Message #" +:+ py_str (ev_id ev) +:+ ")")]))
  /\ (forall target path c,
        SendFile target path c ∈ actions_of (run cwd P ev E f) ->
        path = Naming.mp3_filepath (ev_chat_id ev) (ev_id ev) (now E)
        /\ c = "Audio from channel '"
                 +:+ match chat_lookup E with
                     | Raises _ => "Unknown"
                     | Returns ent =>
                         match title ent, username ent with
                         | Some t, _ => py_format t
                         | None, Some u => py_format u
                         | None, None => py_str (ev_chat_id ev)
                         end
                     end
                 +:+ "' (Message #" +:+ py_str (ev_id ev) +:+ ")").
Proof.
  split; [|split; [|split]].
  - intros l. unfold exit_of, files_of. unfold_handler.
    destruct E as [nw cl ts sw wo ac ff rm tl sf wl fl]; simpl.
    destruct l, cl; simpl; (destruct (falsy (ev_text ev)); simpl; [done|]);
    (destruct ts as [out|]; simpl; [|done]);
    (case_bool_decide; simpl; [done|]).
    all: destruct sw as [[|]|]; simpl; set_facts; [| done..].
    all: destruct wo as [[]|]; simpl; [|done].
    all: destruct ac; simpl; [|done].
    all: destruct ff as [?|rc so se|?]; simpl; [done| |done].
    all: case_decide; simpl; [|done].
    all: destruct rm as [[]|]; simpl; set_facts.
    all: destruct tl; simpl; [|done].
    all: destruct sf as [[]|]; simpl; done.
  - intros e He. unfold actions_of. unfold_handler.
    destruct E as [nw cl ts sw wo ac ff rm tl sf wl fl]; simpl in *. subst cl. simpl.
    destruct (falsy (ev_text ev)); simpl; [split; [in_actions | done]|].
    destruct ts as [out|]; simpl; [|split; intros; in_actions].
    case_bool_decide; simpl; [split; intros; in_actions|].
    destruct sw as [[|]|]; simpl; set_facts; [| split; intros; in_actions..].
    destruct wo as [[]|]; simpl; [|split; intros; in_actions].
    destruct ac; simpl; [|split; intros; in_actions].
    destruct ff as [?|rc so se|?]; simpl;
      [split; intros; in_actions| |split; intros; in_actions].
    case_decide; simpl; [|split; intros; in_actions].
    destruct rm as [[]|]; simpl; set_facts.
    all: destruct tl; simpl; [|split; intros; in_actions].
    all: destruct sf as [[]|]; simpl; split; intros; in_actions.
  - intros out target (Hv & so & se & Hff) Htl.
    destruct Hv as (((Htext & Htts & Hsize) & Hsw) & Hwo & Hac).
    unfold exit_of, actions_of. unfold_handler.
    destruct E as [nw cl ts sw wo ac ff rm tl sf wl fl]; simpl in *; subst.
    rewrite Htext.
    destruct cl as [[t u]|e0]; simpl; rewrite bool_decide_eq_false_2 by done;
      simpl; set_facts.
    all: destruct rm as [[]|]; simpl; set_facts.
    all: destruct sf as [[]|]; simpl.
    all: split; [intros; first [reflexivity | discriminate]|].
    all: split; [intros ? [= <-]; reflexivity|].
    all: split; [intros ? ? [= <-]; simpl; intros ->; reflexivity|].
    all: split; [intros ? ? [= <-]; simpl; intros -> ->; reflexivity|].
    all: intros ? [= <-]; simpl; intros -> ->; reflexivity.
  - intros target path c. unfold actions_of. unfold_handler.
    destruct E as [nw cl ts sw wo ac ff rm tl sf wl fl]; simpl.
    assert (Hsent : forall (l : list action) (x : action),
              x ∈ l -> is_SendFile x = true -> x ∈ List.filter is_SendFile l).
    { intros l x Hx Hs. apply list_elem_of_In, List.filter_In.
      split; [by apply list_elem_of_In | done]. }
    intros Hin. apply Hsent in Hin; [|done]. revert Hin.
    destruct cl as [[t u]|e0]; simpl;
    (destruct (falsy (ev_text ev)); simpl; [by intros ?%elem_of_nil|]);
    (destruct ts as [out|]; simpl; [|by intros ?%elem_of_nil]);
    (case_bool_decide; simpl; [by intros ?%elem_of_nil|]).
    all: destruct sw as [[|]|]; simpl; set_facts; [| by intros ?%elem_of_nil..].
    all: destruct wo as [[]|]; simpl; [|by intros ?%elem_of_nil].
    all: destruct ac; simpl; [|by intros ?%elem_of_nil].
    all: destruct ff as [?|rc so se|?]; simpl;
      [by intros ?%elem_of_nil| |by intros ?%elem_of_nil].
    all: case_decide; simpl; [|by intros ?%elem_of_nil].
    all: destruct rm as [[]|]; simpl; set_facts.
    all: destruct tl; simpl; [|by intros ?%elem_of_nil].
    all: destruct sf as [[]|]; simpl.
    all: intros Hin%list_elem_of_singleton; injection Hin as -> -> ->.
    all: split; [reflexivity|].
    all: first [reflexivity | destruct t as [?|]; [|destruct u as [?|]]; reflexivity].
Qed.

End Stages.

(** On the sample data: the look-up of the source chat raises, every
    other collaborator does its part, and the file is delivered under
    [Unknown]. *)
Lemma title_lookup_never_aborts_witness :
  transcodes Sample.ev Sample.lookup_raises Sample.speech
  /\ exit_of (run Sample.cwd Sample.ffmpeg_path Sample.ev Sample.lookup_raises ∅) = Some Delivered
  /\ List.filter is_SendFile (actions_of (run Sample.cwd Sample.ffmpeg_path Sample.ev Sample.lookup_raises ∅))
     = [SendFile Sample.me
          (Naming.mp3_filepath (ev_chat_id Sample.ev) (ev_id Sample.ev)
             (now Sample.lookup_raises))
          ("Audio from channel 'Unknown' (Message #" +:+ py_str 42 +:+ ")")].
Proof.
  assert (Ht : transcodes Sample.ev Sample.lookup_raises Sample.speech).
  { split; [|exists "done", EmptyString; reflexivity].
    repeat split; first [reflexivity | vm_compute; discriminate]. }
  split; [exact Ht|].
  destruct (title_lookup_never_aborts Sample.cwd Sample.ffmpeg_path Sample.ev Sample.lookup_raises ∅)
    as (_ & _ & H & _).
  destruct (H Sample.speech Sample.me Ht eq_refl) as (Hd & Hu & _).
  split; [exact (Hd eq_refl) | exact (Hu _ eq_refl)].
Defined.

(** * Runs on the sample data *)

(** Claim C1.  A run that has written its WAV file and fails later is
    asked to leave no WAV file behind.  The handler returns from each
    failure after line 102 without deleting the file: here FFmpeg
    completes with status 1, the run is left at line 133 without a call
    of [os.remove], and the WAV file is on disk after the run. *)
Theorem wav_left_after_failed_transcoding :
  writes Sample.ev Sample.ffmpeg_fails Sample.speech
  /\ exit_of (run Sample.cwd Sample.ffmpeg_path Sample.ev Sample.ffmpeg_fails ∅)
     = Some (FfmpegFailed "Invalid data found")
  /\ on_disk Sample.cwd Sample.wav
       (files_of (run Sample.cwd Sample.ffmpeg_path Sample.ev Sample.ffmpeg_fails ∅))
  /\ OsRemove Sample.wav
       ∉ actions_of (run Sample.cwd Sample.ffmpeg_path Sample.ev Sample.ffmpeg_fails ∅).
Proof.
  split; [|split; [|split]].
  - repeat split; first [vm_compute; reflexivity | vm_compute; discriminate].
  - vm_compute. reflexivity.
  - vm_compute. reflexivity.
  - intros Hin. apply list_elem_of_In in Hin. vm_compute in Hin.
    repeat (destruct Hin as [Hin|Hin]; [discriminate|]). exact Hin.
Qed.

(** Claim C4, as stated, fails: with an [os.remove] that raises, the run
    ends as delivered and its WAV file is still on disk. *)
Lemma delivered_with_wav_left :
  exit_of (run Sample.cwd Sample.ffmpeg_path Sample.ev Sample.remove_fails ∅)
  = Some Delivered
  /\ on_disk Sample.cwd Sample.wav
       (files_of (run Sample.cwd Sample.ffmpeg_path Sample.ev Sample.remove_fails ∅)).
Proof. split; vm_compute; reflexivity. Qed.

Example delivered_under_fallback_title :
  exit_of (run Sample.cwd Sample.ffmpeg_path Sample.ev Sample.chat_unknown ∅)
  = Some Delivered
  /\ List.filter is_SendFile
       (actions_of (run Sample.cwd Sample.ffmpeg_path Sample.ev Sample.chat_unknown ∅))
     = [SendFile Sample.me Sample.mp3 "Audio from channel 'Unknown' (Message #42)"].
Proof. split; vm_compute; reflexivity. Qed.

Example fallback_titles :
  chat_title_of Sample.ev (with_chat_lookup (Returns Sample.user) Sample.ok)
  = PyStr "alice"
  /\ chat_title_of Sample.ev (with_chat_lookup (Returns Sample.bare) Sample.ok)
     = PyStr "-1001114591086"
  /\ chat_title_of Sample.ev Sample.chat_unknown = PyStr "Unknown".
Proof. repeat split; vm_compute; reflexivity. Qed.

Example read_back_failures_sample :
  exit_of (run Sample.cwd Sample.ffmpeg_path Sample.ev
             (Sample.with_wave_open (Raises (OtherException "file does not start with RIFF id"))
                Sample.ok) ∅)
  = Some (WavNotOpened (OtherException "file does not start with RIFF id"))
  /\ exit_of (run Sample.cwd Sample.ffmpeg_path Sample.ev
                (Sample.with_access false Sample.ok) ∅)
     = Some WavNotReadable.
Proof. split; vm_compute; reflexivity. Qed.

Example delivered_sample :
  exit_of (run Sample.cwd Sample.ffmpeg_path Sample.ev Sample.ok ∅) = Some Delivered
  /\ elements (files_of (run Sample.cwd Sample.ffmpeg_path Sample.ev Sample.ok ∅))
     = ["/srv/bot/generated_audio/msg_1001114591086_42_1700000000.mp3"]
  /\ List.filter is_SendFile
       (actions_of (run Sample.cwd Sample.ffmpeg_path Sample.ev Sample.ok ∅))
     = [SendFile Sample.me Sample.mp3 "Audio from channel 'News' (Message #42)"].
Proof. repeat split; vm_compute; reflexivity. Qed.

Lemma empty_audio_aborts_before_any_file_witness :
  falsy (ev_text Sample.ev) = false
  /\ exit_of (run Sample.cwd Sample.ffmpeg_path Sample.ev Sample.no_samples ∅)
     = Some EmptyAudio
  /\ files_of (run Sample.cwd Sample.ffmpeg_path Sample.ev Sample.no_samples ∅) = ∅.
Proof.
  split; [reflexivity|].
  destruct (empty_audio_aborts_before_any_file Sample.cwd Sample.ffmpeg_path
              Sample.ev Sample.no_samples ∅ Sample.silence)
    as (Hexit & Hfiles & _); [reflexivity..|].
  split; assumption.
Defined.

Lemma read_back_failure_witness :
  synthesizes Sample.ev (Sample.with_sf_write (Returns false) Sample.ok) Sample.speech
  /\ exit_of (run Sample.cwd Sample.ffmpeg_path Sample.ev
                (Sample.with_sf_write (Returns false) Sample.ok) ∅)
     = Some WavMissing.
Proof.
  assert (Hs : synthesizes Sample.ev (Sample.with_sf_write (Returns false) Sample.ok)
                 Sample.speech).
  { repeat split; first [reflexivity | vm_compute; discriminate]. }
  split; [exact Hs|].
  apply (read_back_failure_stops_before_transcoding Sample.cwd Sample.ffmpeg_path
           Sample.ev (Sample.with_sf_write (Returns false) Sample.ok) ∅
           Sample.speech false Hs); [reflexivity | left; reflexivity].
Defined.

Lemma transcoding_failures_witness :
  verifies Sample.ev Sample.ffmpeg_missing Sample.speech
  /\ exit_of (run Sample.cwd Sample.ffmpeg_path Sample.ev Sample.ffmpeg_missing ∅)
     = Some FfmpegNotFound
  /\ exit_of (run Sample.cwd Sample.ffmpeg_path Sample.ev Sample.ffmpeg_fails ∅)
     = Some (FfmpegFailed "Invalid data found").
Proof.
  assert (Hm : verifies Sample.ev Sample.ffmpeg_missing Sample.speech).
  { repeat split; first [reflexivity | vm_compute; discriminate]. }
  assert (Hf : verifies Sample.ev Sample.ffmpeg_fails Sample.speech).
  { repeat split; first [reflexivity | vm_compute; discriminate]. }
  split; [exact Hm|].
  destruct (transcoding_failures_told_apart Sample.cwd Sample.ffmpeg_path
              Sample.ev Sample.ffmpeg_missing ∅ Sample.speech Hm) as (Hnf & _).
  destruct (transcoding_failures_told_apart Sample.cwd Sample.ffmpeg_path
              Sample.ev Sample.ffmpeg_fails ∅ Sample.speech Hf) as (_ & Hrc & _).
  split.
  - apply (Hnf "[Errno 2] No such file or directory"). reflexivity.
  - apply (Hrc 1 EmptyString "Invalid data found"); [reflexivity | discriminate].
Defined.

Lemma failed_deletion_witness :
  transcodes Sample.ev Sample.remove_fails Sample.speech
  /\ exit_of (run Sample.cwd Sample.ffmpeg_path Sample.ev Sample.remove_fails ∅)
     = Some Delivered.
Proof.
  assert (Ht : transcodes Sample.ev Sample.remove_fails Sample.speech).
  { split; [repeat split; first [reflexivity | vm_compute; discriminate]|].
    exists "done", EmptyString. reflexivity. }
  split; [exact Ht|].
  destruct (failed_deletion_does_not_stop_delivery Sample.cwd Sample.ffmpeg_path
              Sample.ev Sample.remove_fails ∅ Sample.speech
              (OtherException "[WinError 32] file in use") Ht eq_refl)
    as (_ & _ & Hsend & _).
  apply (Hsend Sample.me); reflexivity.
Defined.

Lemma delivered_run_witness :
  exit_of (run Sample.cwd Sample.ffmpeg_path Sample.ev Sample.ok ∅) = Some Delivered
  /\ ~ on_disk Sample.cwd Sample.wav
         (files_of (run Sample.cwd Sample.ffmpeg_path Sample.ev Sample.ok ∅))
  /\ on_disk Sample.cwd Sample.mp3
       (files_of (run Sample.cwd Sample.ffmpeg_path Sample.ev Sample.ok ∅)).
Proof.
  assert (Hd : exit_of (run Sample.cwd Sample.ffmpeg_path Sample.ev Sample.ok ∅)
               = Some Delivered) by (vm_compute; reflexivity).
  split; [exact Hd|].
  destruct (delivered_run_leaves_one_mp3 Sample.cwd Sample.ffmpeg_path
              Sample.ev Sample.ok ∅ Hd eq_refl) as (Hwav & Hmp3 & _).
  split; [exact Hwav | exact Hmp3].
Defined.

(** * Start-up *)

Ltac not_in_trace :=
  let Hin := fresh "Hin" in
  intros Hin; apply list_elem_of_In in Hin; simpl in Hin;
  repeat (destruct Hin as [Hin|Hin]; [discriminate|]); exact Hin.

(** Claim C3, as the code has it.  When the module level statements go
    through and the FFmpeg check of the [__main__] block goes wrong, the
    process ends with status 1 and the client is neither started nor
    run; the handler has been registered on it by then, at line 62.
    With an empty channel list the client is never run until
    disconnected; the list is looked at after the client has been
    started, [main] returns, and with an FFmpeg check that went well the
    process ends with status 0. *)
Theorem startup_checks (channels : list Z) (P : pyval) (B : boot_env) :
  module_loads B ->
  (ffmpeg_unusable (ffmpeg_version B) ->
     snd (script channels P B) = 1
     /\ (ClientStart ∉ fst (script channels P B))
     /\ (RunUntilDisconnected ∉ fst (script channels P B))
     /\ RegisterHandler channels ∈ fst (script channels P B))
  /\ (channels = [] -> RunUntilDisconnected ∉ fst (script channels P B))
  /\ (channels = [] ->
      forall so se, ffmpeg_version B = ProcCompleted 0 so se -> so <> EmptyString ->
      snd (script channels P B) = 0 /\ ClientStart ∈ fst (script channels P B)).
Proof.
  intros ((n & Hid) & Htts & Hdir).
  unfold script, main_block, main, subprocess_run, first_line, rule.
  destruct B as [ai tl cu de md fv cs ud]; simpl in *. subst ai tl.
  assert (Hmk : de = true \/ (de = false /\ md = Returns ())).
  { destruct de; [by left|right]. destruct Hdir; [discriminate|done]. }
  clear Hdir.
  split; [|split].
  - intros Hbad.
    destruct Hmk as [->|[-> ->]]; simpl.
    all: destruct fv as [?|rc so se|?]; simpl in *;
      try rewrite decide_False by done; simpl.
    all: repeat split; first [not_in_trace | apply list_elem_of_In; simpl; tauto].
  - intros ->.
    destruct Hmk as [->|[-> ->]]; simpl.
    all: destruct fv as [?|rc so se|?]; simpl; try not_in_trace.
    all: case_decide; simpl; [|not_in_trace].
    all: destruct so; simpl; [not_in_trace|].
    all: destruct cs; simpl; not_in_trace.
  - intros -> so se -> Hso.
    destruct Hmk as [->|[-> ->]]; simpl.
    all: destruct so; [done|]; simpl.
    all: destruct cs; simpl; split; first [done | apply list_elem_of_In; simpl; tauto].
Qed.

Lemma startup_checks_witness :
  module_loads Sample.boot_without_ffmpeg
  /\ snd (script CHANNELS_TO_MONITOR Sample.ffmpeg_path Sample.boot_without_ffmpeg) = 1.
Proof.
  assert (Hm : module_loads Sample.boot_without_ffmpeg).
  { split; [by exists 12345|]. split; [reflexivity | left; reflexivity]. }
  split; [exact Hm|].
  destruct (startup_checks CHANNELS_TO_MONITOR Sample.ffmpeg_path
              Sample.boot_without_ffmpeg Hm) as (Hbad & _).
  apply Hbad. exact I.
Defined.

(** Claim C3, as stated, fails: with an empty channel list, and every
    collaborator doing its part, the client is started and the process
    ends with status 0. *)
Lemma empty_channel_list_exits_zero :
  snd (script [] Sample.ffmpeg_path Sample.boot) = 0
  /\ ClientStart ∈ fst (script [] Sample.ffmpeg_path Sample.boot).
Proof.
  split; [vm_compute; reflexivity|].
  apply list_elem_of_In. vm_compute. tauto.
Qed.

(** * More on the runs of the handler *)

(** The tactics below run the handler of the goal through every way in
    which the collaborators of a run can answer, in the order in which
    the handler calls them; a collaborator is asked only where the run
    gets to it. *)
Ltac set_facts_if_any :=
  try match goal with |- context [bool_decide (_ ∈ _)] => set_facts end.

Ltac ask_result x :=
  match goal with
  | |- context [match x with Returns _ => _ | Raises _ => _ end] => destruct x
  end; simpl; set_facts_if_any.

Ltac ask_bool x :=
  match goal with
  | |- context [negb x] => destruct x
  | |- context [if x then _ else _] => destruct x
  end; simpl; set_facts_if_any.

Ltac ask_process x :=
  match goal with
  | |- context [subprocess_run _ x] => destruct x
  end; simpl;
  try match goal with
      | |- context [decide (?rc = 0)] => destruct (decide (rc = 0)); [subst rc|]; simpl
      end.

Ltac ask_text :=
  match goal with
  | H : falsy ?t = _ |- context [falsy ?t] => rewrite H
  | |- context [falsy ?t] => destruct (falsy t) eqn:?
  end; simpl.

Ltac ask_size :=
  match goal with
  | H : size ?a <> 0%nat |- context [bool_decide (size ?a = 0%nat)] =>
      rewrite (bool_decide_eq_false_2 _ H)
  | H : size ?a = 0%nat |- context [bool_decide (size ?a = 0%nat)] =>
      rewrite (bool_decide_eq_true_2 _ H)
  | |- context [bool_decide (size ?a = 0%nat)] =>
      destruct (bool_decide_reflect (size a = 0%nat))
  end; simpl.

Ltac all_runs E :=
  unfold exit_of, files_of, actions_of, on_disk,
    transcodes, verifies, writes, synthesizes in *;
  unfold_handler;
  destruct E as [nw cl ts sw wo ac ff rm tl sf wl fl]; simpl in *; subst;
  try ask_result cl;
  try ask_text;
  try ask_result ts;
  try ask_size;
  try (match goal with
       | |- context [match sw with Returns _ => _ | Raises _ => _ end] =>
           destruct sw as [present|]; simpl;
           try (destruct present; simpl; set_facts_if_any)
       end);
  try ask_bool wl;
  try ask_result wo;
  try ask_bool ac;
  try ask_process ff;
  try ask_bool fl;
  try ask_result rm;
  try ask_result tl;
  try ask_result sf;
  repeat match goal with u : () |- _ => destruct u end.

Ltac error_logged :=
  apply list_elem_of_In; simpl; repeat (first [left; reflexivity | right]).

Section MoreStages.

Variable cwd : string.
Variable P : pyval.


(** X1.  A message without text, [None] or the empty string, is skipped:
    the run is left at line 79 having looked up the source chat and
    logged, and nothing else; the files on disk are as before. *)
Theorem message_without_text_is_skipped ev E f :
  falsy (ev_text ev) = true ->
  exit_of (run cwd P ev E f) = Some NoText
  /\ files_of (run cwd P ev E f) = f
  /\ Forall (fun a => looks_or_logs a = true) (actions_of (run cwd P ev E f)).
Proof.
  intros Htext. all_runs E.
  all: repeat split; repeat constructor.
Qed.

(** X2.  When the TTS pipeline raises, the message is given up at line
    147: the error is logged with the message id, the files on disk are
    as before, and the run has neither created a file nor tried to
    deliver one. *)
Theorem synthesis_error_abandons_message ev E f e :
  falsy (ev_text ev) = false ->
  tts E = Raises e ->
  exit_of (run cwd P ev E f) = Some (AudioStageError e)
  /\ files_of (run cwd P ev E f) = f
  /\ Log ERROR ("Error during TTS or audio saving for message ["
                  +:+ py_str (ev_id ev) +:+ "]: " +:+ exn_str e)
       ∈ actions_of (run cwd P ev E f)
  /\ Forall (fun a => creates_file a = false /\ after_transcoding a = false)
       (actions_of (run cwd P ev E f)).
Proof.
  intros Htext Htts. all_runs E.
  all: split; [done|split; [done|split; [in_actions|repeat constructor]]].
Qed.

(** X3.  When [sf.write] raises, the message is given up at line 147 in
    the same way: FFmpeg is not called and nothing is deleted or
    delivered.  Nothing removes what the failed write has left: the
    files on disk are those of before, and the WAV file as well when
    the write had created it before it raised. *)
Theorem write_error_abandons_message ev E f out e :
  synthesizes ev E out ->
  sf_write E = Raises e ->
  exit_of (run cwd P ev E f) = Some (AudioStageError e)
  /\ files_of (run cwd P ev E f)
     = (if write_leaves_file E
        then {[Path.abspath cwd
                 (Naming.wav_filepath cwd (ev_chat_id ev) (ev_id ev) (now E))]} ∪ f
        else f)
  /\ Log ERROR ("Error during TTS or audio saving for message ["
                  +:+ py_str (ev_id ev) +:+ "]: " +:+ exn_str e)
       ∈ actions_of (run cwd P ev E f)
  /\ Forall (fun a => is_SubprocessRun a = false /\ after_transcoding a = false)
       (actions_of (run cwd P ev E f)).
Proof.
  intros (Htext & Htts & Hsize) Hsw. all_runs E.
  all: split; [done|split; [done|split; [in_actions|repeat constructor]]].
Qed.

(** X4.  A failure to launch FFmpeg that is neither a missing file nor a
    status other than 0 (a permission error, a path that is [None]) is
    caught by neither clause of lines 131-136: it reaches the handler of
    line 145, the message is given up at line 147, the WAV file stays on
    disk and nothing is delivered. *)
Theorem launch_error_reaches_outer_handler ev E f out msg :
  verifies ev E out ->
  ffmpeg E = ProcLaunchError msg ->
  exit_of (run cwd P ev E f) = Some (AudioStageError (OtherException msg))
  /\ Log ERROR ("Error during TTS or audio saving for message ["
                  +:+ py_str (ev_id ev) +:+ "]: " +:+ msg)
       ∈ actions_of (run cwd P ev E f)
  /\ on_disk cwd (Naming.wav_filepath cwd (ev_chat_id ev) (ev_id ev) (now E))
       (files_of (run cwd P ev E f))
  /\ Forall (fun a => after_transcoding a = false) (actions_of (run cwd P ev E f)).
Proof.
  intros (((Htext & Htts & Hsize) & Hsw) & Hwo & Hac) Hff. all_runs E.
  all: split; [done|split; [in_actions|split; [still_there|repeat constructor]]].
Qed.

(** X5.  A run left at line 156 had its MP3 file made: the look-up of
    the target or the transfer raised after a transcoding that went
    well, the error is logged with the message id, and the MP3 file is
    left on disk.  When it was the look-up that raised, no file was
    sent. *)
Theorem send_error_leaves_mp3 ev E f e :
  exit_of (run cwd P ev E f) = Some (SendError e) ->
  (exists out, transcodes ev E out)
  /\ (target_lookup E = Raises e \/ send_file E = Raises e)
  /\ on_disk cwd (Naming.mp3_filepath (ev_chat_id ev) (ev_id ev) (now E))
       (files_of (run cwd P ev E f))
  /\ Log ERROR ("Error sending MP3 file for message ["
                  +:+ py_str (ev_id ev) +:+ "]: " +:+ exn_str e)
       ∈ actions_of (run cwd P ev E f)
  /\ (target_lookup E = Raises e ->
      Forall (fun a => is_SendFile a = false) (actions_of (run cwd P ev E f))).
Proof.
  all_runs E.
  all: intros [= <-].
  all: split; [eauto 20|].
  all: split; [auto|].
  all: split;
    [first [ apply elem_of_union; left; by apply elem_of_singleton
           | apply elem_of_difference; split;
             [ apply elem_of_union; left; by apply elem_of_singleton
             | rewrite elem_of_singleton; intros Heq; symmetry in Heq;
               by apply artifact_keys_differ in Heq ] ]|].
  all: split; [in_actions|].
  all: first [by intros [=] | intros _; repeat constructor].
Qed.

(** X6.  A run ends as delivered exactly when the message has text, the
    synthesis, the write, the checks of the WAV file and the
    transcoding go well, the target is found and the transfer goes
    through; whether the WAV file could be deleted plays no part. *)
Theorem delivered_iff ev E f :
  exit_of (run cwd P ev E f) = Some Delivered
  <-> (exists out, transcodes ev E out)
      /\ (exists target, target_lookup E = Returns target)
      /\ send_file E = Returns ().
Proof.
  split; [apply delivered_inv|].
  intros ((out & (((Htext & Htts & Hsize) & Hsw) & Hwo & Hac) & so & se & Hff)
          & (target & Htl) & Hsf).
  all_runs E. all: done.
Qed.

(** X7.  A run touches two files at most, its WAV file and its MP3 file:
    any other file is on disk after the run exactly when it was before. *)
Theorem run_touches_its_two_files_only ev E f p :
  p <> Path.abspath cwd (Naming.wav_filepath cwd (ev_chat_id ev) (ev_id ev) (now E)) ->
  p <> Path.abspath cwd (Naming.mp3_filepath (ev_chat_id ev) (ev_id ev) (now E)) ->
  p ∈ files_of (run cwd P ev E f) <-> p ∈ f.
Proof.
  intros Hwav Hmp3. all_runs E.
  all: rewrite ?elem_of_difference, ?elem_of_union, ?elem_of_singleton; tauto.
Qed.

(** X8.  In one run each of the costly calls is made once at most: the
    TTS pipeline, [sf.write], FFmpeg and the transfer of the file. *)
Theorem each_call_once_at_most ev E f :
  (length (List.filter is_TtsPipeline (actions_of (run cwd P ev E f))) <= 1)%nat
  /\ (length (List.filter is_SfWrite (actions_of (run cwd P ev E f))) <= 1)%nat
  /\ (length (List.filter is_SubprocessRun (actions_of (run cwd P ev E f))) <= 1)%nat
  /\ (length (List.filter is_SendFile (actions_of (run cwd P ev E f))) <= 1)%nat.
Proof.
  all_runs E. all: simpl; lia.
Qed.

(** X9.  A run that is neither skipped for want of text nor delivered
    leaves an error record in the log. *)
Theorem failure_is_logged ev E f :
  exit_of (run cwd P ev E f) = Some NoText
  \/ exit_of (run cwd P ev E f) = Some Delivered
  \/ exists msg, Log ERROR msg ∈ actions_of (run cwd P ev E f).
Proof.
  all_runs E.
  all: first [by left | by right; left | right; right; eexists; error_logged].
Qed.

Lemma size_zero_iff (a : ndarray) : size a = 0%nat <-> 0%nat ∈ shape a.
Proof.
  unfold size. induction (shape a) as [|d l IH]; simpl.
  - split; [discriminate | by intros ?%elem_of_nil].
  - rewrite elem_of_cons, <- IH. lia.
Qed.

(** X10.  A run is left at line 93 exactly when the message has text and
    the array the TTS pipeline gives has an axis of length 0: squeezing
    the array has no part in the test. *)
Theorem empty_audio_iff ev E f :
  exit_of (run cwd P ev E f) = Some EmptyAudio
  <-> falsy (ev_text ev) = false
      /\ exists out, tts E = Returns out /\ 0%nat ∈ shape (audio out).
Proof.
  assert (Hz : forall a, size (squeeze a) = 0%nat <-> 0%nat ∈ shape a).
  { intros a. by rewrite size_squeeze, size_zero_iff. }
  all_runs E.
  all: split; [intros [=] | intros (Htext & out & [=] & Hshape)]; subst.
  all: try discriminate.
  all: try (split; [done|eexists; split; [done|by apply Hz]]).
  all: by apply Hz in Hshape.
Qed.

(** X11.  Once written, the WAV file of a run is off the disk after the
    run exactly when the transcoding went well and [os.remove] did not
    raise. *)
Theorem wav_removed_iff ev E f out :
  writes ev E out ->
  ~ on_disk cwd (Naming.wav_filepath cwd (ev_chat_id ev) (ev_id ev) (now E))
      (files_of (run cwd P ev E f))
  <-> transcodes ev E out /\ os_remove E = Returns ().
Proof.
  intros ((Htext & Htts & Hsize) & Hsw).
  pose proof (artifact_keys_differ cwd (ev_chat_id ev) (ev_id ev) (now E)) as Hne.
  revert Hne. all_runs E. all: intros Hne.
  all: rewrite ?elem_of_difference, ?elem_of_union, ?elem_of_singleton.
  all: split; [intros Hoff | intros Hon].
  all: try (exfalso; apply Hoff; tauto).
  all: try (repeat split; eauto; done).
  all: try tauto.
  all: decompose [and ex] Hon; simplify_eq.
Qed.


End MoreStages.

(** * More on the naming scheme *)

Lemma all_chars_app (Q : ascii -> Prop) (s t : string) :
  all_chars Q (s +:+ t) <-> all_chars Q s /\ all_chars Q t.
Proof.
  induction s as [|a s IH]; [simpl; tauto|].
  rewrite app_cons. simpl. rewrite IH. tauto.
Qed.

Lemma all_chars_impl (Q R : ascii -> Prop) (s : string) :
  (forall a, Q a -> R a) -> all_chars Q s -> all_chars R s.
Proof. intros HQR. induction s as [|a s IH]; simpl; [done|]. intros [? ?]. auto. Qed.

Lemma app_inj_same_length (s t x y : string) :
  String.length x = String.length y -> s +:+ x = t +:+ y -> s = t /\ x = y.
Proof.
  intros Hlen. revert t.
  induction s as [|a s IH]; intros [|b t] Heq.
  - done.
  - apply (f_equal String.length) in Heq.
    rewrite !length_app_str in Heq. simpl in Heq. lia.
  - apply (f_equal String.length) in Heq.
    rewrite !length_app_str in Heq. simpl in Heq. lia.
  - rewrite !app_cons in Heq. injection Heq as -> Heq.
    destruct (IH t Heq) as [-> ->]. done.
Qed.

Lemma wav_suffix_ne_mp3 (u v : string) : u +:+ ".wav" <> v +:+ ".mp3".
Proof.
  intros Heq. apply app_inj_same_length in Heq as [_ Heq]; [discriminate|done].
Qed.

(** X13.  The MP3 files of two runs have the same path exactly when the
    runs agree on the absolute value of the channel id, on the message
    id and on the whole second of the clock reading: an MP3 file is
    overwritten exactly when the WAV file is. *)
Theorem mp3_filepath_eq_iff (cwd : string) (c1 m1 c2 m2 : Z) (t1 t2 : Q) :
  (Naming.mp3_filepath c1 m1 t1 = Naming.mp3_filepath c2 m2 t2
   <-> Z.abs c1 = Z.abs c2 /\ m1 = m2 /\ py_int t1 = py_int t2)
  /\ (Naming.mp3_filepath c1 m1 t1 = Naming.mp3_filepath c2 m2 t2
      <-> Naming.wav_filepath cwd c1 m1 t1 = Naming.wav_filepath cwd c2 m2 t2).
Proof.
  assert (Hmp3 : Naming.mp3_filepath c1 m1 t1 = Naming.mp3_filepath c2 m2 t2
                 <-> Z.abs c1 = Z.abs c2 /\ m1 = m2 /\ py_int t1 = py_int t2).
  { split.
    - unfold Naming.mp3_filepath.
      rewrite !in_output_dir by apply base_filename_relative. intros Heq.
      apply (inj (String.app "generated_audio/")) in Heq.
      by apply base_filename_inj in Heq.
    - intros (Hc & -> & Ht).
      unfold Naming.mp3_filepath, Naming.base_filename. by rewrite Hc, Ht. }
  split; [exact Hmp3|]. by rewrite Hmp3, wav_filepath_eq_iff.
Qed.

(** X14.  No WAV file of a run is the MP3 file of a run, the same or
    another: FFmpeg, which writes MP3 files only, never writes over an
    intermediate file. *)
Theorem wav_is_never_an_mp3 (cwd : string) (c1 m1 c2 m2 : Z) (t1 t2 : Q) :
  Path.abspath cwd (Naming.wav_filepath cwd c1 m1 t1)
  <> Path.abspath cwd (Naming.mp3_filepath c2 m2 t2).
Proof.
  rewrite mp3_filepath_abs, wav_filepath_relative_part.
  set (rw := "generated_audio/" +:+ Naming.base_filename c1 m1 t1 +:+ ".wav").
  set (rm := "generated_audio/" +:+ Naming.base_filename c2 m2 t2 +:+ ".mp3").
  assert (Hne : forall pre, pre +:+ rw <> rm).
  { intros pre. unfold rw, rm. rewrite <- !app_assoc_str. apply wav_suffix_ne_mp3. }
  assert (Hrw : Path.is_abs rw = false) by reflexivity.
  assert (Hrm : Path.is_abs rm = false) by reflexivity.
  clearbody rw rm.
  unfold Path.abspath at 1.
  destruct (Path.is_abs (Path.join cwd rw)) eqn:Habs; intros Heq.
  - apply join_relative_inj in Heq; [|done..]. by apply (Hne EmptyString).
  - apply join_relative_inj in Heq; [|done..].
    revert Heq. unfold Path.join. rewrite Hrw.
    destruct (decide (cwd = EmptyString)); [apply (Hne EmptyString)|].
    destruct (Path.ends_with_sep cwd); [apply Hne|].
    rewrite <- app_assoc_str. apply Hne.
Qed.

(** X15.  Whatever the ids and the clock reading, the base name is made
    of the letters of [msg], underscores, digits and dashes: it has no
    path separator and no dot, so that the WAV and the MP3 file of a run
    are files of the output directory itself. *)
Theorem base_filename_stays_in_output_dir (cwd : string) (c m : Z) (t : Q) :
  all_chars (fun a => a <> "/"%char /\ a <> "."%char) (Naming.base_filename c m t)
  /\ Naming.wav_filepath cwd c m t
     = Path.join cwd ("generated_audio/" +:+ Naming.base_filename c m t +:+ ".wav")
  /\ Naming.mp3_filepath c m t
     = "generated_audio/" +:+ Naming.base_filename c m t +:+ ".mp3".
Proof.
  split; [|split].
  - assert (Hnum : forall z, all_chars (fun a => a <> "/"%char /\ a <> "."%char)
                               (py_str z)).
    { intros z. apply (all_chars_impl numeral_char); [|apply py_str_numeral].
      intros a [->|[H1 H2]]; [split; discriminate|].
      split; intros ->; vm_compute in H1; by apply H1. }
    unfold Naming.base_filename. rewrite !all_chars_app.
    repeat split; try apply Hnum; discriminate.
  - apply wav_filepath_relative_part.
  - unfold Naming.mp3_filepath. apply in_output_dir, base_filename_relative.
Qed.

Lemma py_int_floor (t : Q) : (0 <= t)%Q -> py_int t = Qfloor t.
Proof.
  destruct t as [n d]. unfold py_int, Qfloor, Qle. simpl. intros Hn.
  apply Z.quot_div_nonneg; lia.
Qed.

(** X16.  Two runs whose clock readings are not before 1970 and at least
    a second apart get two WAV paths, whatever their channel and message
    ids. *)
Theorem a_second_apart_never_collides (cwd : string) (c1 m1 c2 m2 : Z) (t1 t2 : Q) :
  (0 <= t1)%Q ->
  (t1 + 1 <= t2)%Q ->
  Naming.wav_filepath cwd c1 m1 t1 <> Naming.wav_filepath cwd c2 m2 t2.
Proof.
  intros H0 H12. rewrite wav_filepath_eq_iff. intros (_ & _ & Heq).
  assert (H2 : (0 <= t2)%Q).
  { apply Qle_trans with (t1 + 1)%Q; [|done].
    apply Qle_trans with (t1 + 0)%Q; [by rewrite Qplus_0_r|].
    by apply Qplus_le_r. }
  rewrite !py_int_floor in Heq by done.
  assert (Hle : (Qfloor t1 + 1 <= Qfloor t2)%Z).
  { rewrite <- (Qfloor_Z (Qfloor t1 + 1)). apply Qfloor_resp_le.
    apply Qle_trans with (t1 + 1)%Q; [|done].
    rewrite inject_Z_plus. apply Qplus_le_l, Qfloor_le. }
  lia.
Qed.

Lemma a_second_apart_witness :
  (0 <= 3400000001 # 2)%Q
  /\ Naming.wav_filepath "/srv/bot" (-1001114591086) 42 (3400000001 # 2)
     <> Naming.wav_filepath "/srv/bot" (-1001114591086) 42 (3400000003 # 2).
Proof.
  assert (H0 : (0 <= 3400000001 # 2)%Q) by (vm_compute; discriminate).
  split; [exact H0|].
  apply (a_second_apart_never_collides "/srv/bot" (-1001114591086) 42
           (-1001114591086) 42 (3400000001 # 2) (3400000003 # 2) H0).
  vm_compute. discriminate.
Defined.

(** * More on the start-up *)

Ltac boot_step :=
  match goal with
  | u : () |- _ => destruct u
  | |- context [match ?x with Returns _ => _ | Raises _ => _ end] =>
      is_var x; destruct x
  | |- context [match ?x with ProcNotFound _ => _ | ProcCompleted _ _ _ => _
                         | ProcLaunchError _ => _ end] =>
      is_var x; destruct x
  | |- context [decide (?rc = 0)] => destruct (decide (rc = 0)); [subst rc|]
  | |- context [match ?s with EmptyString => _ | String _ _ => _ end] =>
      is_var s; destruct s
  | |- context [match ?x with Completes => _ | Fails _ => _ | Interrupted => _ end] =>
      is_var x; destruct x
  | |- context [decide (?l = [])] => destruct (decide (l = []))
  | |- context [if ?b then _ else _] => is_var b; destruct b
  end; simpl.

Ltac all_boots B :=
  unfold module_loads in *;
  unfold script, main_block, main, subprocess_run, first_line, rule;
  destruct B as [ai tl cu de md fv cs ud]; simpl in *;
  repeat boot_step.

Ltac by_status :=
  match goal with H : ?rc <> 0 |- _ => destruct rc; first [done | discriminate] end.

(** X17.  Once the module level statements have gone through, the exit
    status of the process is decided by the FFmpeg check alone: 0 when
    FFmpeg completes with status 0 and has printed something, 1
    otherwise; an FFmpeg that completes with status 0 and prints
    nothing fails the check.  The channel list and the way the client
    starts, runs and stops have no part in the status. *)
Theorem exit_status_after_loading (channels : list Z) (P : pyval) (B : boot_env) :
  module_loads B ->
  snd (script channels P B)
  = if version_check_passes (ffmpeg_version B) then 0 else 1.
Proof.
  intros ((n & Hid) & Htts & Hdir). revert Hid Htts Hdir.
  all_boots B.
  all: intros Hid Htts Hdir; try done.
  all: try (destruct Hdir; discriminate).
  all: try by_status.
Qed.

(** X18.  When loading the TTS pipeline raises, the script logs two
    error records and leaves through [exit()]: the process ends with
    status 0 having neither created the output directory, registered
    the handler, checked FFmpeg nor started the client. *)
Theorem tts_load_failure_exits_zero (channels : list Z) (P : pyval) (B : boot_env) n e :
  api_id B = Returns n ->
  tts_load B = Raises e ->
  snd (script channels P B) = 0
  /\ fst (script channels P B)
     = [BootLog INFO ("Loading TTS pipeline with model: " +:+ TTS_MODEL_NAME +:+ "...");
        LoadTtsPipeline TTS_MODEL_NAME;
        BootLog ERROR ("Error loading TTS pipeline: " +:+ exn_str e);
        BootLog ERROR "Please ensure the transformers library is correctly installed (version 4.20+) and torch is installed with required dependencies."].
Proof.
  intros Hid Htts. unfold script. rewrite Hid, Htts. done.
Qed.

(** X19.  The process waits for messages exactly when the module level
    statements go through, the FFmpeg check passes, the client starts
    and the channel list is not empty. *)
Theorem waits_for_messages_iff (channels : list Z) (P : pyval) (B : boot_env) :
  RunUntilDisconnected ∈ fst (script channels P B)
  <-> module_loads B
      /\ version_check_passes (ffmpeg_version B) = true
      /\ client_start B = Completes
      /\ channels <> [].
Proof.
  all_boots B.
  all: rewrite list_elem_of_In; simpl.
  all: split;
    [ intros Hin;
      first [ exfalso; repeat (destruct Hin as [Hin|Hin]; [discriminate|]); exact Hin
            | repeat split; eauto; done ]
    | intros (((n' & Hid) & Htts & Hdir) & Hv & Hcs & Hch);
      first [ tauto
            | discriminate
            | exfalso; destruct Hdir; discriminate
            | exfalso; by_status ]
    ].
Qed.

(** X20.  Once the process waits for messages, the way the wait ends
    shows in the last thing the process does, and the exit status is 0
    each time: a client that disconnects is reported as stopped, an
    interrupt from the keyboard is reported as a stop by the user, and
    any other exception is logged as unexpected. *)
Theorem end_of_the_wait (channels : list Z) (P : pyval) (B : boot_env) :
  module_loads B ->
  version_check_passes (ffmpeg_version B) = true ->
  client_start B = Completes ->
  channels <> [] ->
  last (fst (script channels P B))
  = Some (match until_disconnected B with
          | Completes => Stdout "Telegram client stopped."
          | Interrupted => Stdout "Application stopped by user."
          | Fails _ => BootLog ERROR "An unexpected error occurred:"
          end)
  /\ snd (script channels P B) = 0
  /\ (until_disconnected B <> Completes ->
      Stdout "Telegram client stopped." ∉ fst (script channels P B)).
Proof.
  intros ((n & Hid) & Htts & Hdir) Hv Hcs Hch. revert Hid Htts Hdir Hv Hcs Hch.
  all_boots B.
  all: intros Hid Htts Hdir Hv Hcs Hch; try discriminate; try done.
  all: try (destruct Hdir; discriminate).
  all: try by_status.
  all: split; [reflexivity|split; [reflexivity|]].
  all: first [ by intros Hud
             | intros _ Hin; apply list_elem_of_In in Hin; simpl in Hin;
               repeat (destruct Hin as [Hin|Hin]; [discriminate|]); exact Hin ].
Qed.

(** * The properties above on the sample data *)

Lemma message_without_text_witness :
  falsy (ev_text Sample.ev_photo) = true
  /\ exit_of (run Sample.cwd Sample.ffmpeg_path Sample.ev_photo Sample.ok ∅)
     = Some NoText.
Proof.
  split; [reflexivity|].
  apply (message_without_text_is_skipped Sample.cwd Sample.ffmpeg_path
           Sample.ev_photo Sample.ok ∅).
  reflexivity.
Defined.

Lemma synthesis_error_witness :
  falsy (ev_text Sample.ev) = false
  /\ exit_of (run Sample.cwd Sample.ffmpeg_path Sample.ev Sample.tts_raises ∅)
     = Some (AudioStageError (OtherException "CUDA out of memory")).
Proof.
  split; [reflexivity|].
  apply (synthesis_error_abandons_message Sample.cwd Sample.ffmpeg_path
           Sample.ev Sample.tts_raises ∅ (OtherException "CUDA out of memory"));
    reflexivity.
Defined.

Lemma write_error_witness :
  synthesizes Sample.ev Sample.write_raises Sample.speech
  /\ exit_of (run Sample.cwd Sample.ffmpeg_path Sample.ev Sample.write_raises ∅)
     = Some (AudioStageError (OtherException "Error opening file: System error."))
  /\ on_disk Sample.cwd Sample.wav
       (files_of (run Sample.cwd Sample.ffmpeg_path Sample.ev Sample.write_raises ∅)).
Proof.
  assert (Hs : synthesizes Sample.ev Sample.write_raises Sample.speech).
  { repeat split; first [reflexivity | vm_compute; discriminate]. }
  split; [exact Hs|].
  destruct (write_error_abandons_message Sample.cwd Sample.ffmpeg_path
              Sample.ev Sample.write_raises ∅ Sample.speech
              (OtherException "Error opening file: System error.") Hs eq_refl)
    as (Hexit & Hfiles & _).
  split; [exact Hexit|].
  unfold on_disk. rewrite Hfiles. apply elem_of_union. left.
  apply elem_of_singleton. vm_compute. reflexivity.
Defined.

Lemma launch_error_witness :
  verifies Sample.ev Sample.ffmpeg_denied Sample.speech
  /\ exit_of (run Sample.cwd Sample.ffmpeg_path Sample.ev Sample.ffmpeg_denied ∅)
     = Some (AudioStageError (OtherException "[Errno 13] Permission denied")).
Proof.
  assert (Hv : verifies Sample.ev Sample.ffmpeg_denied Sample.speech).
  { repeat split; first [reflexivity | vm_compute; discriminate]. }
  split; [exact Hv|].
  apply (launch_error_reaches_outer_handler Sample.cwd Sample.ffmpeg_path
           Sample.ev Sample.ffmpeg_denied ∅ Sample.speech
           "[Errno 13] Permission denied" Hv).
  reflexivity.
Defined.

Lemma send_error_witness :
  exit_of (run Sample.cwd Sample.ffmpeg_path Sample.ev Sample.send_raises ∅)
  = Some (SendError (OtherException "Connection reset"))
  /\ on_disk Sample.cwd Sample.mp3
       (files_of (run Sample.cwd Sample.ffmpeg_path Sample.ev Sample.send_raises ∅)).
Proof.
  assert (He : exit_of (run Sample.cwd Sample.ffmpeg_path Sample.ev Sample.send_raises ∅)
               = Some (SendError (OtherException "Connection reset")))
    by (vm_compute; reflexivity).
  split; [exact He|].
  apply (send_error_leaves_mp3 Sample.cwd Sample.ffmpeg_path Sample.ev
           Sample.send_raises ∅ (OtherException "Connection reset") He).
Defined.

Lemma run_touches_its_two_files_only_witness :
  "/srv/bot/generated_audio/notes.txt"
    ∈ files_of (run Sample.cwd Sample.ffmpeg_path Sample.ev Sample.ok
                  {["/srv/bot/generated_audio/notes.txt"]}).
Proof.
  apply (run_touches_its_two_files_only Sample.cwd Sample.ffmpeg_path Sample.ev
           Sample.ok {["/srv/bot/generated_audio/notes.txt"]}
           "/srv/bot/generated_audio/notes.txt").
  - vm_compute. discriminate.
  - vm_compute. discriminate.
  - by apply elem_of_singleton.
Defined.

Lemma wav_removed_witness :
  writes Sample.ev Sample.ok Sample.speech
  /\ ~ on_disk Sample.cwd Sample.wav
         (files_of (run Sample.cwd Sample.ffmpeg_path Sample.ev Sample.ok ∅)).
Proof.
  assert (Hw : writes Sample.ev Sample.ok Sample.speech).
  { repeat split; first [reflexivity | vm_compute; discriminate]. }
  split; [exact Hw|].
  apply (wav_removed_iff Sample.cwd Sample.ffmpeg_path Sample.ev Sample.ok ∅
           Sample.speech Hw).
  split; [|reflexivity].
  split; [split; [exact Hw|split; reflexivity]|].
  exists "done", EmptyString. reflexivity.
Defined.


Lemma exit_status_witness :
  module_loads Sample.boot
  /\ snd (script CHANNELS_TO_MONITOR Sample.ffmpeg_path Sample.boot) = 0.
Proof.
  assert (Hm : module_loads Sample.boot).
  { split; [by exists 12345|]. split; [reflexivity | left; reflexivity]. }
  split; [exact Hm|].
  apply (exit_status_after_loading CHANNELS_TO_MONITOR Sample.ffmpeg_path
           Sample.boot Hm).
Defined.

Lemma tts_load_failure_witness :
  tts_load Sample.boot_without_tts = Raises (OtherException "No module named 'torch'")
  /\ snd (script CHANNELS_TO_MONITOR Sample.ffmpeg_path Sample.boot_without_tts) = 0.
Proof.
  split; [reflexivity|].
  apply (tts_load_failure_exits_zero CHANNELS_TO_MONITOR Sample.ffmpeg_path
           Sample.boot_without_tts 12345 (OtherException "No module named 'torch'"));
    reflexivity.
Defined.

Lemma end_of_the_wait_witness :
  module_loads Sample.boot_interrupted
  /\ last (fst (script CHANNELS_TO_MONITOR Sample.ffmpeg_path Sample.boot_interrupted))
     = Some (Stdout "Application stopped by user.").
Proof.
  assert (Hm : module_loads Sample.boot_interrupted).
  { split; [by exists 12345|]. split; [reflexivity | left; reflexivity]. }
  split; [exact Hm|].
  apply (end_of_the_wait CHANNELS_TO_MONITOR Sample.ffmpeg_path
           Sample.boot_interrupted Hm); [reflexivity | reflexivity | discriminate].
Defined.
